(** * Tikz-Python: the drawing environment, the rectangle and the PNG crop

  A shallow embedding of [src/tikzpy/tikz_environments/tikz_picture.py]
  (class [TikzPicture]) together with the parts of the library it relies on
  (the [Rectangle] drawing object, the helpers of [tikzpy.utils.helpers]).

  Python values are modelled as follows.
  - [str] is [string]; [+] and [+=] on strings are [append].
  - A [dict] is an association list kept in insertion order, with
    assignment overwriting in place (module [Dict]).
  - The list of drawing objects is a [list]; a drawing object is anything
    that has a [code] property (class [Drawable]).
  - A number is an [int], an integer of any size, or a [float], an IEEE
    binary64 number with its rounding, its infinities and its NaN: Rocq's
    primitive floats.  The coordinates of points and the arithmetic of
    [save_png] are such numbers. *)

From Stdlib Require Import ZArith Lia Bool.
From Stdlib Require Import List Strings.String Strings.Ascii Numbers.DecimalString.
From Stdlib Require PrimFloat SpecFloat FloatOps FloatAxioms.
Import ListNotations.

Set Implicit Arguments.

Open Scope string_scope.

(** ** Strings *)

(** The line feed, written [\n] in the Python source. *)
Definition nl : string := String (ascii_of_nat 10) EmptyString.

(** [str(n)] for a Python [int]. *)
Definition str_int (n : Z) : string := NilEmpty.string_of_int (Z.to_int n).

(** [code += stmt] for each [stmt] of [stmts], starting from [code]. *)
Definition append_each (code : string) (stmts : list string) : string :=
  fold_left (fun code stmt => code ++ stmt) stmts code.

(** Modelled from the spec: [tikzpy.utils.helpers.brackets], which is not
  part of the sources at hand.  The options are put between square
  brackets, and an empty option string leaves no brackets at all. *)
Definition brackets (s : string) : string :=
  match s with
  | EmptyString => ""
  | _ => "[" ++ s ++ "]"
  end.

(** The concatenation of a list of strings, first to last. *)
Definition join (l : list string) : string := fold_right append "" l.

(** ** Python dictionaries with string keys and string values *)

Module Dict.

Definition t := list (string * string).

Definition empty : t := [].

(** [d[k] = v]: an existing key keeps its place and gets the new value, a
    new key goes to the end. *)
Fixpoint set (d : t) (k v : string) : t :=
  match d with
  | [] => [(k, v)]
  | (k', v') :: d' =>
      if String.eqb k' k then (k', v) :: d' else (k', v') :: set d' k v
  end.

(** [d.get(k)] *)
Fixpoint get (d : t) (k : string) : option string :=
  match d with
  | [] => None
  | (k', v') :: d' => if String.eqb k' k then Some v' else get d' k
  end.

(** [list(d.keys())] and [list(d.values())] *)
Definition keys (d : t) : list string := map fst d.
Definition values (d : t) : list string := map snd d.

(** The number of entries stored under the key [k]. *)
Definition count (d : t) (k : string) : nat :=
  List.length (filter (fun e => String.eqb (fst e) k) d).

(** The place of the key [k] in the iteration order. *)
Fixpoint index (d : t) (k : string) : option nat :=
  match d with
  | [] => None
  | (k', _) :: d' =>
      if String.eqb k' k then Some O else option_map S (index d' k)
  end.

(** The dictionary obtained from the empty one by the assignments
    [d[k] = v] for the pairs of [items], in that order. *)
Definition of_items (items : list (string * string)) : t :=
  fold_left (fun d kv => set d (fst kv) (snd kv)) items empty.

(** A dictionary holds a key once. *)
Definition wf (d : t) : Prop := NoDup (keys d).

End Dict.

(** ** Drawing objects *)

(** What [TikzPicture] asks of a drawing object: its [code] property. *)
Class Drawable (A : Type) := { code_of : A -> string }.

(** ** The class [TikzPicture] *)

Module TikzPicture.

Section Picture.

(** The drawing objects, the [TikzStyle] objects with their two properties
    and constructor, and the text Python gives for an angle. *)
Context {drawable : Type} `{Drawable drawable}.
Variable TikzStyle : Type.
Variable style_name : TikzStyle -> string.
Variable style_code : TikzStyle -> string.
Variable new_TikzStyle : string -> string -> TikzStyle.
Variable angle : Type.
Variable str_angle : angle -> string.

Record t := mk {
  options : string;
  drawing_objects : list drawable;
  _preamble : Dict.t;
  _postamble : Dict.t;
  tdplotsetmaincoords : option (angle * angle)
}.

(** [TikzPicture.__init__(center, options)] *)
Definition init (center : bool) (opts : string) : t :=
  let pre := Dict.empty in
  let post := Dict.empty in
  if center then
    mk opts [] (Dict.set pre "center" ("\begin{center}" ++ nl))
               (Dict.set post "center" ("\end{center}" ++ nl)) None
  else
    mk opts [] (Dict.set pre "center" "") (Dict.set post "center" "") None.

(** Modelled from the spec: [TikzEnvironment.draw], of the base class that
    is not part of the sources at hand.  It appends a drawing object to the
    ordered sequence. *)
Definition draw (tp : t) (obj : drawable) : t :=
  mk (options tp) (drawing_objects tp ++ [obj]) (_preamble tp)
     (_postamble tp) (tdplotsetmaincoords tp).

(** The loop over the drawing objects, shared by [code] and [__repr__]. *)
Definition append_objects (code : string) (objs : list drawable) : string :=
  fold_left (fun code draw_obj => code ++ ("    " ++ code_of draw_obj ++ nl))
            objs code.

(** [TikzPicture.code()] *)
Definition code (tp : t) : string :=
  let code := "" in
  let code := append_each code (Dict.values (_preamble tp)) in
  let code := code ++ ("\begin{tikzpicture}" ++ brackets (options tp) ++ nl) in
  let code := append_objects code (drawing_objects tp) in
  let code := code ++ ("\end{tikzpicture}" ++ nl) in
  let code := append_each code (rev (Dict.values (_postamble tp))) in
  code.

(** [TikzPicture.__repr__()] *)
Definition repr (tp : t) : string :=
  let readable_code := "\begin{tikzpicture}" ++ brackets (options tp) ++ nl in
  let readable_code := append_objects readable_code (drawing_objects tp) in
  let readable_code := readable_code ++ ("\end{tikzpicture}" ++ nl) in
  readable_code.

(** [TikzPicture.add_styles], called with any number of styles *)
Definition add_styles (tp : t) (styles : list TikzStyle) : t :=
  fold_left
    (fun tp style =>
       mk (options tp) (drawing_objects tp)
          (Dict.set (_preamble tp) ("tikz_style:" ++ style_name style)
                    (style_code style))
          (_postamble tp) (tdplotsetmaincoords tp))
    styles tp.

(** [TikzPicture.tikzset(style_name, style_rules)]: the new picture and
    the style that is returned. *)
Definition tikzset (tp : t) (name rules : string) : t * TikzStyle :=
  let style := new_TikzStyle name rules in
  (add_styles tp [style], style).

(** [TikzPicture.set_tdplotsetmaincoords(theta, phi)] *)
Definition set_tdplotsetmaincoords (tp : t) (theta phi : angle) : t :=
  mk (options tp) (drawing_objects tp)
     (Dict.set (_preamble tp) "tdplotsetmaincoords"
        ("\tdplotsetmaincoords{" ++ str_angle theta ++ "}{"
           ++ str_angle phi ++ "}" ++ nl))
     (_postamble tp) (Some (theta, phi)).

(** The calls a user makes on a picture. *)
Inductive call :=
| Draw (obj : drawable)
| AddStyles (styles : list TikzStyle)
| Tikzset (name rules : string)
| SetTdplotsetmaincoords (theta phi : angle).

Definition do_call (tp : t) (c : call) : t :=
  match c with
  | Draw obj => draw tp obj
  | AddStyles styles => add_styles tp styles
  | Tikzset name rules => fst (tikzset tp name rules)
  | SetTdplotsetmaincoords theta phi => set_tdplotsetmaincoords tp theta phi
  end.

Definition do_calls (tp : t) (cs : list call) : t := fold_left do_call cs tp.

(** The text of the picture's body and its two wrapper lines. *)
Definition begin_line (tp : t) : string :=
  "\begin{tikzpicture}" ++ brackets (options tp) ++ nl.
Definition end_line : string := "\end{tikzpicture}" ++ nl.
Definition object_lines (objs : list drawable) : string :=
  join (map (fun o => "    " ++ code_of o ++ nl) objs).

End Picture.

End TikzPicture.

(** ** Python numbers in [save_png]: [int] and [float] *)

Set Warnings "-inexact-float".

(** The exceptions that [save_png] can raise by itself. *)
Inductive exception := IndexError | ValueError | OverflowError.

Module PyNum.

Import PrimFloat.

Inductive t :=
| PyInt (z : Z)
| PyFloat (f : float).

(** [float(z)]: the binary64 number nearest to the integer [z]. *)
Definition float_of_int (z : Z) : float :=
  FloatOps.SF2Prim (SpecFloat.binary_normalize FloatOps.prec FloatOps.emax z 0 false).

Definition to_float (a : t) : float :=
  match a with
  | PyInt z => float_of_int z
  | PyFloat f => f
  end.

(** [c * n] for a float [c] and an int [n]; [a + b] and [a - b] for an int
    [a] and a float [b]. *)
Definition mul_float_int (c : float) (n : Z) : t := PyFloat (c * float_of_int n).
Definition add_int_float (a : Z) (b : t) : t := PyFloat (float_of_int a + to_float b).
Definition sub_int_float (a : Z) (b : t) : t := PyFloat (float_of_int a - to_float b).

(** [a < b]; an int is compared with a float through its conversion, which
    is exact below 2^53. *)
Definition lt (a b : t) : bool :=
  match a, b with
  | PyInt x, PyInt y => (x <? y)%Z
  | _, _ => (to_float a <? to_float b)%float
  end.

(** [min(a, b)] keeps [a] unless [b < a]; [max(a, b)] keeps [a] unless
    [b > a]. *)
Definition min (a b : t) : t := if lt b a then b else a.
Definition max (a b : t) : t := if lt a b then b else a.

(** [int(a)]: a float is cut towards zero; one that is infinite or is not a
    number raises. *)
Definition int (a : t) : exception + Z :=
  match a with
  | PyInt z => inr z
  | PyFloat f =>
      match FloatOps.Prim2SF f with
      | SpecFloat.S754_zero _ => inr 0%Z
      | SpecFloat.S754_finite s m e =>
          let mag := if (0 <=? e)%Z then (Z.pos m * 2 ^ e)%Z
                     else (Z.pos m / 2 ^ (- e))%Z in
          inr (if s then (- mag)%Z else mag)
      | SpecFloat.S754_infinity _ => inl OverflowError
      | SpecFloat.S754_nan => inl ValueError
      end
  end.

End PyNum.

(** ** Results of operations that can raise *)

Module Result.

Definition bind {A B : Type} (r : exception + A) (k : A -> exception + B)
  : exception + B :=
  match r with
  | inl e => inl e
  | inr a => k a
  end.

Definition map {A B : Type} (f : A -> B) (r : exception + A) : exception + B :=
  bind r (fun a => inr (f a)).

End Result.

Notation "'let?' x := r 'in' k" := (Result.bind r (fun x => k))
  (at level 10, x name, r at level 100, k at level 200).

(** ** Python arithmetic on numbers

    The operations of Python on [int] and [float] that the points and the
    rectangles use.  An [int] is exact; a [float] is a binary64 number.  An
    operation on an [int] and a [float] converts the [int] first, which
    raises [OverflowError] when the [int] is beyond the range of [float];
    a comparison of an [int] with a [float] is exact and raises nothing. *)

Module PyArith.

Import PrimFloat.

Definition num : Type := PyNum.t.

(** How the integer [z] compares with the float [f], exactly; [None] when
    [f] is not a number. *)
Definition compare_int_float (z : Z) (f : float) : option comparison :=
  match FloatOps.Prim2SF f with
  | SpecFloat.S754_nan => None
  | SpecFloat.S754_infinity s => Some (if s then Gt else Lt)
  | SpecFloat.S754_zero _ => Some (Z.compare z 0)
  | SpecFloat.S754_finite s m e =>
      let v := if s then Z.neg m else Z.pos m in
      Some (if (0 <=? e)%Z then Z.compare z (v * 2 ^ e)
            else Z.compare (z * 2 ^ (- e)) v)
  end.

(** [a < b] *)
Definition lt (a b : num) : bool :=
  match a, b with
  | PyNum.PyInt x, PyNum.PyInt y => (x <? y)%Z
  | PyNum.PyFloat f, PyNum.PyFloat g => (f <? g)%float
  | PyNum.PyInt x, PyNum.PyFloat g =>
      match compare_int_float x g with Some Lt => true | _ => false end
  | PyNum.PyFloat f, PyNum.PyInt y =>
      match compare_int_float y f with Some Gt => true | _ => false end
  end.

(** [a == b] *)
Definition eq (a b : num) : bool :=
  match a, b with
  | PyNum.PyInt x, PyNum.PyInt y => (x =? y)%Z
  | PyNum.PyFloat f, PyNum.PyFloat g => (f =? g)%float
  | PyNum.PyInt x, PyNum.PyFloat g =>
      match compare_int_float x g with Some Eq => true | _ => false end
  | PyNum.PyFloat f, PyNum.PyInt y =>
      match compare_int_float y f with Some Eq => true | _ => false end
  end.

(** The float that an operation takes for [a]: the float nearest to an
    [int], or [OverflowError] when that is beyond the greatest float. *)
Definition to_float (a : num) : exception + float :=
  match a with
  | PyNum.PyInt z =>
      let f := PyNum.float_of_int z in
      if is_infinity f then inl OverflowError else inr f
  | PyNum.PyFloat f => inr f
  end.

(** An operation of floats on two numbers of which one at least is a
    float. *)
Definition float_op (op : float -> float -> float) (a b : num) : exception + num :=
  let? f := to_float a in
  let? g := to_float b in
  inr (PyNum.PyFloat (op f g)).

(** [a + b], [a - b] and [a * b] *)
Definition add (a b : num) : exception + num :=
  match a, b with
  | PyNum.PyInt x, PyNum.PyInt y => inr (PyNum.PyInt (x + y))
  | _, _ => float_op PrimFloat.add a b
  end.

Definition sub (a b : num) : exception + num :=
  match a, b with
  | PyNum.PyInt x, PyNum.PyInt y => inr (PyNum.PyInt (x - y))
  | _, _ => float_op PrimFloat.sub a b
  end.

Definition mul (a b : num) : exception + num :=
  match a, b with
  | PyNum.PyInt x, PyNum.PyInt y => inr (PyNum.PyInt (x * y))
  | _, _ => float_op PrimFloat.mul a b
  end.

(** [abs(a)] *)
Definition abs (a : num) : num :=
  match a with
  | PyNum.PyInt x => PyNum.PyInt (Z.abs x)
  | PyNum.PyFloat f => PyNum.PyFloat (PrimFloat.abs f)
  end.

(** [a / 2]: the true division, which gives a float.  Of an [int] it is
    the float nearest to the exact half, or [OverflowError] when that is
    beyond the greatest float. *)
Definition half (a : num) : exception + num :=
  match a with
  | PyNum.PyInt x =>
      let f := FloatOps.SF2Prim
                 (SpecFloat.binary_normalize FloatOps.prec FloatOps.emax x (-1) false) in
      if is_infinity f then inl OverflowError else inr (PyNum.PyFloat f)
  | PyNum.PyFloat f => inr (PyNum.PyFloat (f / 2))
  end.

(** [min(a, b)] keeps [a] unless [b < a]; [max(a, b)] keeps [a] unless
    [b > a]. *)
Definition min (a b : num) : num := if lt b a then b else a.
Definition max (a b : num) : num := if lt a b then b else a.

(** [str(a)], given the text of a float. *)
Definition str (str_float : float -> string) (a : num) : string :=
  match a with
  | PyNum.PyInt z => str_int z
  | PyNum.PyFloat f => str_float f
  end.

(** Two results are the same when they are one value or compare equal
    ([a is b or a == b], as Python compares the items of containers). *)
Definition same (a b : num) : Prop := a = b \/ eq a b = true.



(** The numbers are one value, or two zeros of floats. *)
Definition tied (a b : num) : Prop :=
  a = b \/
  exists f g s s', a = PyNum.PyFloat f /\ b = PyNum.PyFloat g /\
                   FloatOps.Prim2SF f = SpecFloat.S754_zero s /\
                   FloatOps.Prim2SF g = SpecFloat.S754_zero s'.

End PyArith.

(** ** Points and rectangles

    The classes [Point] and [Rectangle] are exercised by
    [tests/drawing_objects/test_rectangle.py]; their own files are not among
    the sources, so both are modelled from the spec.  A rectangle keeps its
    two corners as they were given, and its derived attributes are computed
    anew from the two corners by the constructor and by every change.  An
    operation raises what the arithmetic on the coordinates raises. *)

Module Point.

(** Modelled from the spec: the class [Point], a pair of numeric
    coordinates, each an [int] or a [float]. *)
Record t := mk { x : PyArith.num; y : PyArith.num }.

(** Modelled from the spec: [p == q] on points, which holds when both
    coordinates compare equal. *)
Definition eqb (p q : t) : bool := PyArith.eq (x p) (x q) && PyArith.eq (y p) (y q).

(** Two points are the same when their coordinates are. *)
Definition same (p q : t) : Prop :=
  PyArith.same (x p) (x q) /\ PyArith.same (y p) (y q).

(** Modelled from the spec: [p.shift(dx, dy)] on a point, the translation
    by a delta. *)
Definition shift (p : t) (dx dy : PyArith.num) : exception + t :=
  let? x' := PyArith.add (x p) dx in
  let? y' := PyArith.add (y p) dy in
  inr (mk x' y').

(** Modelled from the spec: [p.scale(k)] on a point, the multiplication of
    both coordinates by a factor. *)
Definition scale (p : t) (k : PyArith.num) : exception + t :=
  let? x' := PyArith.mul (x p) k in
  let? y' := PyArith.mul (y p) k in
  inr (mk x' y').

(** Modelled from the spec: the text of a point in a draw command,
    [(<x>, <y>)], given the text of a float. *)
Definition str (str_float : PrimFloat.float -> string) (p : t) : string :=
  "(" ++ PyArith.str str_float (x p) ++ ", " ++ PyArith.str str_float (y p) ++ ")".

End Point.

Module Rectangle.

(** Modelled from the spec: the class [Rectangle], with its two corners as
    given, its style options, and its derived attributes. *)
Record t := mk {
  left_corner : Point.t;
  right_corner : Point.t;
  options : string;
  height : PyArith.num;
  width : PyArith.num;
  center : Point.t;
  north : Point.t;
  south : Point.t;
  east : Point.t;
  west : Point.t
}.

(** Modelled from the spec: the recomputation of the derived attributes from
    the two corners.  The width and the height are the absolute differences
    of the corners' coordinates; the center and the four edge midpoints come
    from the least and the greatest abscissa and ordinate. *)
Definition recompute (l r : Point.t) (opts : string) : exception + t :=
  let min_x := PyArith.min (Point.x l) (Point.x r) in
  let max_x := PyArith.max (Point.x l) (Point.x r) in
  let min_y := PyArith.min (Point.y l) (Point.y r) in
  let max_y := PyArith.max (Point.y l) (Point.y r) in
  let? dx := PyArith.sub (Point.x r) (Point.x l) in
  let? sum_x := PyArith.add min_x max_x in
  let? mid_x := PyArith.half sum_x in
  let? dy := PyArith.sub (Point.y r) (Point.y l) in
  let? sum_y := PyArith.add min_y max_y in
  let? mid_y := PyArith.half sum_y in
  inr (mk l r opts (PyArith.abs dy) (PyArith.abs dx)
          (Point.mk mid_x mid_y)
          (Point.mk mid_x max_y) (Point.mk mid_x min_y)
          (Point.mk max_x mid_y) (Point.mk min_x mid_y)).

(** Modelled from the spec: [Rectangle(left_corner, right_corner, options)],
    which stores the corners as given; the options default to the empty
    string. *)
Definition new (l r : Point.t) (opts : string) : exception + t := recompute l r opts.

(** Modelled from the spec: the assignment [rectangle.left_corner = p],
    which triggers the recomputation of the derived attributes. *)
Definition set_left_corner (rect : t) (p : Point.t) : exception + t :=
  recompute p (right_corner rect) (options rect).

(** Modelled from the spec: the assignment [rectangle.right_corner = p],
    which triggers the recomputation of the derived attributes. *)
Definition set_right_corner (rect : t) (p : Point.t) : exception + t :=
  recompute (left_corner rect) p (options rect).

(** Modelled from the spec: [rectangle.shift(dx, dy)] translates both
    corners by the same delta and recomputes the derived attributes. *)
Definition shift (rect : t) (dx dy : PyArith.num) : exception + t :=
  let? l := Point.shift (left_corner rect) dx dy in
  let? r := Point.shift (right_corner rect) dx dy in
  recompute l r (options rect).

(** Modelled from the spec: [rectangle.scale(factor)] multiplies the
    coordinates of both corners by the factor, about the origin, and
    recomputes the derived attributes. *)
Definition scale (rect : t) (k : PyArith.num) : exception + t :=
  let? l := Point.scale (left_corner rect) k in
  let? r := Point.scale (right_corner rect) k in
  recompute l r (options rect).

(** Modelled from the spec: [rectangle.code], the draw command with the
    options in brackets and the two corners as given; the text of a float
    is a parameter. *)
Definition code (str_float : PrimFloat.float -> string) (rect : t) : string :=
  "\draw" ++ brackets (options rect) ++ " " ++ Point.str str_float (left_corner rect)
    ++ " rectangle " ++ Point.str str_float (right_corner rect) ++ ";".

(** The derived attributes of [rect] are those that the corners [l] and [r]
    give: the height and the width are the absolute differences of their
    ordinates and of their abscissas; the center is the middle of the least
    and the greatest abscissa and of the least and the greatest ordinate;
    north and south are above and below the center, at the greatest and at
    the least ordinate; east and west are right and left of it, at the
    greatest and at the least abscissa. *)
Definition derived_from (l r : Point.t) (rect : t) : Prop :=
  Result.map PyArith.abs (PyArith.sub (Point.y r) (Point.y l)) = inr (height rect) /\
  Result.map PyArith.abs (PyArith.sub (Point.x r) (Point.x l)) = inr (width rect) /\
  (let? sum := PyArith.add (PyArith.min (Point.x l) (Point.x r))
                           (PyArith.max (Point.x l) (Point.x r)) in
   PyArith.half sum) = inr (Point.x (center rect)) /\
  (let? sum := PyArith.add (PyArith.min (Point.y l) (Point.y r))
                           (PyArith.max (Point.y l) (Point.y r)) in
   PyArith.half sum) = inr (Point.y (center rect)) /\
  north rect = Point.mk (Point.x (center rect)) (PyArith.max (Point.y l) (Point.y r)) /\
  south rect = Point.mk (Point.x (center rect)) (PyArith.min (Point.y l) (Point.y r)) /\
  east rect = Point.mk (PyArith.max (Point.x l) (Point.x r)) (Point.y (center rect)) /\
  west rect = Point.mk (PyArith.min (Point.x l) (Point.x r)) (Point.y (center rect)).


(** The changes a user makes to a rectangle. *)
Inductive mutation :=
| SetLeftCorner (p : Point.t)
| SetRightCorner (p : Point.t)
| Shift (dx dy : PyArith.num)
| Scale (k : PyArith.num).

(** One change, and a sequence of changes made one after the other; a
    change that raises ends the sequence. *)
Definition mutate (rect : t) (m : mutation) : exception + t :=
  match m with
  | SetLeftCorner p => set_left_corner rect p
  | SetRightCorner p => set_right_corner rect p
  | Shift dx dy => shift rect dx dy
  | Scale k => scale rect k
  end.

Fixpoint mutate_all (rect : t) (ms : list mutation) : exception + t :=
  match ms with
  | [] => inr rect
  | m :: ms' => let? rect' := mutate rect m in mutate_all rect' ms'
  end.

(** The rectangle constructed from two corners and then changed. *)
Definition made (l r : Point.t) (opts : string) (ms : list mutation) : exception + t :=
  let? rect := new l r opts in mutate_all rect ms.


(** What the recomputation derives on one axis from the coordinate [a] of
    the left corner and the coordinate [b] of the right corner: the least
    and the greatest, the middle and the extent. *)
Definition axis (a b : PyArith.num)
  : exception + (PyArith.num * PyArith.num * PyArith.num * PyArith.num) :=
  let? d := PyArith.sub b a in
  let? sum := PyArith.add (PyArith.min a b) (PyArith.max a b) in
  let? mid := PyArith.half sum in
  inr (PyArith.min a b, PyArith.max a b, mid, PyArith.abs d).

(** The rectangle with the corners and the options given and the derived
    attributes that the two axes give. *)
Definition build (l r : Point.t) (opts : string)
    (ax ay : PyArith.num * PyArith.num * PyArith.num * PyArith.num) : t :=
  let '(min_x, max_x, mid_x, w) := ax in
  let '(min_y, max_y, mid_y, h) := ay in
  mk l r opts h w (Point.mk mid_x mid_y)
    (Point.mk mid_x max_y) (Point.mk mid_x min_y)
    (Point.mk max_x mid_y) (Point.mk min_x mid_y).


End Rectangle.

(** ** The boundary detection of [tikzpy.utils.helpers] *)

(** A grayscale image as numpy gives it: the list of its rows, each a list
    of intensities. *)
Definition grid := list (list Z).

(** [len(img_data)] is the number of rows; [img_data.T] is the list of the
    columns, so that [len(img_data.T)] is the number of columns. *)
Definition ncols (g : grid) : nat :=
  match g with
  | [] => O
  | row :: _ => List.length row
  end.

Definition transpose (g : grid) : grid :=
  map (fun j => map (fun row => nth j row 0%Z) g) (seq 0 (ncols g)).

Module Helpers.

Section Boundary.

(** The brightness below which a pixel counts as drawn, and what the two
    scans answer on an image that has no such pixel. *)
Variable threshold : Z.
Variable start_sentinel end_sentinel : Z.

Definition has_ink (row : list Z) : bool := existsb (fun v => (v <? threshold)%Z) row.

(** The scan from the first row on, [i] being the index of the head of
    [rows]. *)
Fixpoint first_ink_from (i : Z) (rows : grid) : option Z :=
  match rows with
  | [] => None
  | row :: rows' => if has_ink row then Some i else first_ink_from (i + 1) rows'
  end.

(** The scan towards the last row: the last index with ink. *)
Fixpoint last_ink_from (i : Z) (rows : grid) : option Z :=
  match rows with
  | [] => None
  | row :: rows' =>
      match last_ink_from (i + 1) rows' with
      | Some j => Some j
      | None => if has_ink row then Some i else None
      end
  end.

(** Modelled from the spec: [find_image_start_boundary], which is not part
    of the sources at hand.  The index of the first row that holds a pixel
    below the threshold, or the sentinel when no row does. *)
Definition find_image_start_boundary (img_data : grid) : Z :=
  match first_ink_from 0 img_data with
  | Some i => i
  | None => start_sentinel
  end.

(** Modelled from the spec: [find_image_end_boundary], which is not part of
    the sources at hand.  The index of the last row that holds a pixel below
    the threshold, or the sentinel when no row does. *)
Definition find_image_end_boundary (img_data : grid) : Z :=
  match last_ink_from 0 img_data with
  | Some i => i
  | None => end_sentinel
  end.

End Boundary.

End Helpers.

(** ** Printing and raising

    A computation that prints lines and either raises or returns: it takes
    the lines printed so far and gives the lines printed after it with its
    outcome. *)

Module IO.

Definition t (A : Type) : Type := list string -> list string * (exception + A).

Definition ret {A : Type} (a : A) : t A := fun out => (out, inr a).

Definition bind {A B : Type} (m : t A) (k : A -> t B) : t B :=
  fun out =>
    match m out with
    | (out', inl e) => (out', inl e)
    | (out', inr a) => k a out'
    end.

Definition print (line : string) : t unit := fun out => ((out ++ [line])%list, inr tt).

Definition raise {A : Type} (e : exception) : t A := fun out => (out, inl e).

Definition lift {A : Type} (r : exception + A) : t A := fun out => (out, r).

(** The lines printed and the outcome of a computation run on its own. *)
Definition run {A : Type} (m : t A) : list string * (exception + A) := m [].

End IO.

Notation "x <- m ;; k" := (IO.bind m (fun x => k))
  (at level 61, m at next level, right associativity).
Notation "m ;;; k" := (IO.bind m (fun _ => k))
  (at level 61, right associativity).

(** ** [TikzPicture.save_png] *)

Module SavePng.

Import PrimFloat.

(** [l[i]] on a Python list: a negative index counts from the end. *)
Definition getitem {A : Type} (l : list A) (i : Z) : IO.t A :=
  let n := Z.of_nat (List.length l) in
  let j := if (i <? 0)%Z then (i + n)%Z else i in
  if (j <? 0)%Z then IO.raise IndexError
  else match nth_error l (Z.to_nat j) with
       | Some a => IO.ret a
       | None => IO.raise IndexError
       end.

(** [l[start:stop]] as numpy and Python slice: the bounds are clipped to the
    length, a negative bound counts from the end. *)
Definition slice {A : Type} (l : list A) (start stop : Z) : list A :=
  let n := Z.of_nat (List.length l) in
  let clip i := if (i <? 0)%Z then Z.max 0 (i + n) else Z.min i n in
  let a := clip start in
  let b := clip stop in
  firstn (Z.to_nat (b - a)) (skipn (Z.to_nat a) l).

(** The crop window: rows [y_0] to [y_1], columns [x_0] to [x_1]. *)
Record window := mk_window { y_0 : Z; y_1 : Z; x_0 : Z; x_1 : Z }.

Section SavePng.

(** The collaborators: file paths and their [repr], the page images that
    [pdf2image.convert_from_path] makes of a PDF, the arrays numpy makes of
    an image converted to grayscale and to RGB, and the two scans of
    [tikzpy.utils.helpers]. *)
Variables path image pixel : Type.
Variable repr_path : path -> string.
Variable convert_from_path : path -> list image.
Variable grayscale : image -> grid.
Variable rgb : image -> list (list pixel).
Variable find_image_start_boundary find_image_end_boundary : grid -> Z.

(** The line printed when there is more than one page. *)
Definition warning (pdf_fp : path) : string :=
  "WARNING! pdf_fp=" ++ repr_path pdf_fp
    ++ " has more than two pages, expected only one. Going to use"
    ++ " the last page. ".

Definition converting (ind total : Z) : string :=
  "Converting page " ++ str_int ind ++ "/" ++ str_int total.

(** Lines 172 to 182: the page that is converted, among the pages that the
    rasterizer returned. *)
Definition select_page (pdf_fp : path) (page_pngs : list image) : IO.t image :=
  let total := Z.of_nat (List.length page_pngs) in
  let ind := 0%Z in
  ind <- (if (1 <? total)%Z
          then IO.print (warning pdf_fp) ;;;
               IO.ret (Z.of_nat (List.length page_pngs) - 1)%Z
          else IO.ret ind) ;;
  image <- getitem page_pngs ind ;;
  IO.print (converting ind total) ;;;
  IO.ret image.

(** Lines 186 to 197: the crop window of a grayscale image. *)
Definition crop_window (img_data : grid) : IO.t window :=
  let y_0 := find_image_start_boundary img_data in
  let y_1 := find_image_end_boundary img_data in
  let x_0 := find_image_start_boundary (transpose img_data) in
  let x_1 := find_image_end_boundary (transpose img_data) in
  let horizontal_len := Z.of_nat (List.length (transpose img_data)) in
  let vertical_len := Z.of_nat (List.length (transpose img_data)) in
  x_0 <- IO.lift (PyNum.int (PyNum.min (PyNum.mul_float_int 0.20 horizontal_len)
                                       (PyNum.PyInt x_0))) ;;
  x_1 <- IO.lift (PyNum.int (PyNum.max (PyNum.mul_float_int 0.80 horizontal_len)
                                       (PyNum.PyInt x_1))) ;;
  y_0 <- IO.lift (PyNum.int (PyNum.max (PyNum.PyInt 0)
            (PyNum.sub_int_float y_0 (PyNum.mul_float_int 0.02 vertical_len)))) ;;
  y_1 <- IO.lift (PyNum.int (PyNum.min (PyNum.PyInt vertical_len)
            (PyNum.add_int_float y_1 (PyNum.mul_float_int 0.02 vertical_len)))) ;;
  IO.ret (mk_window y_0 y_1 x_0 x_1).

(** [img_data[y_0:y_1, x_0:x_1]] *)
Definition crop (img_data : list (list pixel)) (w : window) : list (list pixel) :=
  map (fun row => slice row (x_0 w) (x_1 w)) (slice img_data (y_0 w) (y_1 w)).

(** The array has no row, or its rows have no column. *)
Definition no_pixels (img_data : list (list pixel)) : bool :=
  match img_data with
  | [] => true
  | [] :: _ => true
  | (_ :: _) :: _ => false
  end.

(** Lines 202 and 203: [Image.fromarray] makes an image of the array and
    [cropped_img.save] writes it.  An image without pixels cannot be
    written as a PNG: [save] raises [ValueError] and leaves no file. *)
Definition save_image (png_destination : path) (img_data : list (list pixel))
  : IO.t (path * list (list pixel)) :=
  if no_pixels img_data then IO.raise ValueError
  else IO.ret (png_destination, img_data).

(** [TikzPicture.save_png(pdf_fp, png_destination)]: the file that is
    written and the pixels it holds. *)
Definition save_png (pdf_fp png_destination : path) : IO.t (path * list (list pixel)) :=
  let page_pngs := convert_from_path pdf_fp in
  image <- select_page pdf_fp page_pngs ;;
  w <- crop_window (grayscale image) ;;
  save_image png_destination (crop (rgb image) w).

End SavePng.

End SavePng.

(** ** The calls on a picture: what they assign and what they draw *)

Module Calls.

Section Calls.

Context {drawable : Type}.
Variable TikzStyle : Type.
Variable style_name : TikzStyle -> string.
Variable new_TikzStyle : string -> string -> TikzStyle.
Variable angle : Type.

(** The preamble keys that a call assigns, in the order of the assignments. *)
Definition assigned_keys (c : @TikzPicture.call drawable TikzStyle angle) : list string :=
  match c with
  | TikzPicture.Draw _ _ _ => []
  | TikzPicture.AddStyles _ styles => map (fun style => "tikz_style:" ++ style_name style) styles
  | TikzPicture.Tikzset _ _ name rules => ["tikz_style:" ++ style_name (new_TikzStyle name rules)]
  | TikzPicture.SetTdplotsetmaincoords _ _ _ => ["tdplotsetmaincoords"]
  end.

(** The objects that a sequence of calls draws, in the order of the calls. *)
Definition drawn (cs : list (@TikzPicture.call drawable TikzStyle angle)) : list drawable :=
  flat_map (fun c => match c with
                     | TikzPicture.Draw _ _ obj => [obj]
                     | _ => []
                     end) cs.

End Calls.

(** The keys that the methods of [TikzPicture] assign after the constructor:
    the one of the viewing angle and those of the styles. *)
Definition method_key (k : string) : Prop :=
  k = "tdplotsetmaincoords" \/ exists name, k = "tikz_style:" ++ name.

(** The code that is stored for the key [key] by the last style of [styles]
    that has this key, if there is one. *)
Fixpoint last_code {TikzStyle : Type} (style_name style_code : TikzStyle -> string)
    (key : string) (styles : list TikzStyle) : option string :=
  match styles with
  | [] => None
  | style :: styles' =>
      match last_code style_name style_code key styles' with
      | Some c => Some c
      | None => if String.eqb ("tikz_style:" ++ style_name style) key
                then Some (style_code style) else None
      end
  end.

End Calls.

(** ** [re.sub] with a plain text as pattern *)

Module Re.

(** [re.search(pattern, s).start()]: where the leftmost occurrence of the
    pattern starts, [None] when there is none. *)
Fixpoint search (pattern s : string) : option nat :=
  if String.prefix pattern s then Some O
  else match s with
       | EmptyString => None
       | String _ s' => option_map S (search pattern s')
       end.

(** The scan of [re.sub]: [skip] characters of the occurrence that was just
    replaced are still to be passed over. *)
Fixpoint sub_from (skip : nat) (pattern repl s : string) : string :=
  match s with
  | EmptyString => EmptyString
  | String c s' =>
      match skip with
      | S k => sub_from k pattern repl s'
      | O =>
          if String.prefix pattern s
          then repl ++ sub_from (String.length pattern - 1) pattern repl s'
          else String c (sub_from O pattern repl s')
      end
  end.

(** [re.sub(pattern, lambda x: repl, s)] for a pattern that is a non-empty
    text without special characters: every occurrence, from the left and
    without overlap, is replaced by [repl], which is copied as it is. *)
Definition sub (pattern repl s : string) : string := sub_from O pattern repl s.

End Re.

(** ** Writing the code to files *)

Module TexFile.

Section Files.

Context {drawable : Type} `{Drawable drawable}.
Variable angle : Type.

(** File paths, the operator [/] of [pathlib], the working directory, the
    path of a file name, and the template [tikzpy.templates.tex_file.TEX_FILE]. *)
Variable path : Type.
Variable path_join : path -> path -> path.
Variable cwd : path.
Variable path_of_name : string -> path.
Variable TEX_FILE : string.

(** A picture with its [BASE_DIR]. *)
Record t := mk {
  picture : @TikzPicture.t drawable angle;
  BASE_DIR : option path
}.

(** [TikzPicture.write_tex_file(tex_filepath)]: the file that is written and
    the text it holds. *)
Definition write_tex_file (self : t) (tex_filepath : path) : path * string :=
  let tex_code := TEX_FILE in
  let tex_file_contents := Re.sub "fillme" (TikzPicture.code (picture self)) tex_code in
  let tex_filepath :=
    match BASE_DIR self with
    | Some base_dir => path_join base_dir tex_filepath
    | None => tex_filepath
    end in
  (tex_filepath, tex_file_contents).

(** [TikzPicture.write(tikz_code_filepath)]: the file that is written and
    the text it holds. *)
Definition write (self : t) (tikz_code_filepath : option path) : path * string :=
  let tikz_code_filepath :=
    match tikz_code_filepath with
    | None => path_of_name "tikz_code.tex"
    | Some p => p
    end in
  let base_dir := cwd in
  let base_dir :=
    match BASE_DIR self with
    | Some d => d
    | None => base_dir
    end in
  let tikz_code_filepath := path_join base_dir tikz_code_filepath in
  (tikz_code_filepath, TikzPicture.code (picture self)).

End Files.

End TexFile.

(** ** Loading the module and [TikzPicture.show] *)

Module Jupyter.

(** Where the module is loaded: whether [IPython] can be imported, and what
    [get_ipython()] returns, [None] or a shell with the keys of its
    [config]. *)
Record environment := mk_environment {
  ipython_installed : bool;
  shell_config : option (list string)
}.

(** What can go wrong when the module is loaded and when [show] runs. *)
Inductive failure := AttributeError | NameError.

(** Lines 22 to 32: the value that [JUPYTER_ENABLED] is bound to when the
    module is loaded, [None] when the name is left unbound. *)
Definition load (env : environment) : failure + option bool :=
  if ipython_installed env then
    match shell_config env with
    | None => inl AttributeError
    | Some config =>
        if existsb (String.eqb "IPKernelApp") config then inr (Some true)
        else inr None
    end
  else inr (Some false).

(** What [show] does with the compiled PDF. *)
Inductive shown := DisplayPages | OpenBrowser.

(** Lines 211 to 216: the branch of [show] on [JUPYTER_ENABLED]. *)
Definition show_branch (JUPYTER_ENABLED : option bool) : failure + shown :=
  match JUPYTER_ENABLED with
  | None => inl NameError
  | Some true => inr DisplayPages
  | Some false => inr OpenBrowser
  end.

(** Loading the module and then calling [show]. *)
Definition load_then_show (env : environment) : failure + shown :=
  match load env with
  | inl e => inl e
  | inr binding => show_branch binding
  end.

End Jupyter.

(** The element at row [i] and column [j] of an array given by its rows. *)
Definition pixel_at {A : Type} (img_data : list (list A)) (i j : nat) : option A :=
  match nth_error img_data i with
  | Some row => nth_error row j
  | None => None
  end.

(** The lines that [save_png] is to print when the pages are [front]
    followed by one more page: the warning, when [front] is not empty, and
    the line that tells which page is converted. *)
Definition printed_lines {path image : Type} (repr_path : path -> string)
    (pdf_fp : path) (front : list image) : list string :=
  match front with
  | [] => ["Converting page 0/1"]
  | _ :: _ =>
      ["WARNING! pdf_fp=" ++ repr_path pdf_fp
         ++ " has more than two pages, expected only one. Going to use the last page. ";
       "Converting page " ++ str_int (Z.of_nat (List.length front))
         ++ "/" ++ str_int (Z.of_nat (List.length front) + 1)%Z]
  end.

(** ** Instances and inputs used in the examples *)

(** A white page of 10 rows and 100 columns with one black pixel in its last
    row, at column 50. *)
Definition wide_page : grid :=
  (repeat (repeat 255%Z 100) 9
     ++ [(repeat 255%Z 50 ++ [0%Z] ++ repeat 255%Z 49)%list])%list.

(** A white page of 100 rows and 10 columns with one black pixel in its last
    row, at column 5. *)
Definition tall_page : grid :=
  (repeat (repeat 255%Z 10) 99
     ++ [(repeat 255%Z 5 ++ [0%Z] ++ repeat 255%Z 4)%list])%list.

(** [wide_page] with one more white row below: 11 rows and 100 columns. *)
Definition wide_page_11 : grid := (wide_page ++ [repeat 255%Z 100])%list.

(** Every pixel of the image is black (0) or white (255). *)
Definition black_or_white (g : grid) : bool :=
  forallb (forallb (fun v => (v =? 0)%Z || (v =? 255)%Z)) g.

(** A drawing object given by its code. *)
#[export] Instance string_drawable : Drawable string := { code_of := fun s => s }.

(** A rectangle as a drawing object, given the text of a float. *)
Definition rectangle_drawable (str_float : PrimFloat.float -> string)
  : Drawable Rectangle.t :=
  {| code_of := Rectangle.code str_float |}.


(** A style given by its name and its code. *)
Definition example_style : Type := string * string.

(** * Properties *)

(** ** Strings *)

Lemma append_nil_l (s : string) : "" ++ s = s.
Proof. reflexivity. Qed.

Lemma append_nil_r (s : string) : s ++ "" = s.
Proof. induction s as [|c s IH]; simpl; [reflexivity | now rewrite IH]. Qed.

Lemma append_assoc (a b c : string) : (a ++ b) ++ c = a ++ (b ++ c).
Proof. induction a as [|ch a IH]; simpl; [reflexivity | now rewrite IH]. Qed.

Lemma join_app (l m : list string) : join (l ++ m) = join l ++ join m.
Proof.
  induction l as [|s l IH]; simpl; [reflexivity|].
  now rewrite IH, append_assoc.
Qed.

(** The accumulation loop appends the fragments in the order of the list. *)
Lemma append_each_join (stmts : list string) :
  forall code, append_each code stmts = code ++ join stmts.
Proof.
  unfold append_each.
  induction stmts as [|s stmts IH]; intros code; simpl.
  - now rewrite append_nil_r.
  - now rewrite IH, append_assoc.
Qed.

(** ** Dictionaries *)

Module DictFacts.

Lemma keys_set_in (d : Dict.t) (k v : string) :
  In k (Dict.keys d) -> Dict.keys (Dict.set d k v) = Dict.keys d.
Proof.
  induction d as [|[k' v'] d IH]; simpl; [tauto|].
  intros Hin. destruct (String.eqb_spec k' k) as [->|Hne]; simpl; [reflexivity|].
  f_equal. apply IH. destruct Hin; [contradiction | assumption].
Qed.

Lemma set_notin (d : Dict.t) (k v : string) :
  ~ In k (Dict.keys d) -> Dict.set d k v = (d ++ [(k, v)])%list.
Proof.
  induction d as [|[k' v'] d IH]; simpl; [reflexivity|].
  intros Hnin. destruct (String.eqb_spec k' k) as [->|Hne]; [tauto|].
  f_equal. apply IH. tauto.
Qed.

Lemma keys_set (d : Dict.t) (k v : string) :
  Dict.keys (Dict.set d k v) = Dict.keys d \/
  (~ In k (Dict.keys d) /\ Dict.keys (Dict.set d k v) = (Dict.keys d ++ [k])%list).
Proof.
  destruct (in_dec string_dec k (Dict.keys d)) as [Hin|Hnin].
  - left. now apply keys_set_in.
  - right. split; [assumption|].
    rewrite set_notin by assumption. unfold Dict.keys. now rewrite map_app.
Qed.

Lemma in_keys_set (d : Dict.t) (k v : string) : In k (Dict.keys (Dict.set d k v)).
Proof.
  destruct (keys_set d k v) as [E|[Hnin E]]; rewrite E.
  - destruct (in_dec string_dec k (Dict.keys d)) as [Hin|Hnin]; [assumption|].
    exfalso. rewrite set_notin in E by assumption.
    unfold Dict.keys in E. rewrite map_app in E. simpl in E.
    apply (f_equal (@List.length string)) in E. rewrite length_app in E.
    simpl in E. lia.
  - apply in_or_app. right. now left.
Qed.

Lemma in_keys_set_mono (d : Dict.t) (k v k' : string) :
  In k' (Dict.keys d) -> In k' (Dict.keys (Dict.set d k v)).
Proof.
  intros Hin. destruct (keys_set d k v) as [E|[_ E]]; rewrite E; [assumption|].
  apply in_or_app. now left.
Qed.

Lemma wf_set (d : Dict.t) (k v : string) : Dict.wf d -> Dict.wf (Dict.set d k v).
Proof.
  unfold Dict.wf. intros Hwf.
  destruct (keys_set d k v) as [E|[Hnin E]]; rewrite E; [assumption|].
  apply NoDup_app; [assumption | repeat constructor; intros [] | ].
  intros a Ha [<-|[]]. contradiction.
Qed.

Lemma get_set_same (d : Dict.t) (k v : string) : Dict.get (Dict.set d k v) k = Some v.
Proof.
  induction d as [|[k' v'] d IH]; simpl.
  - now rewrite String.eqb_refl.
  - destruct (String.eqb_spec k' k) as [->|Hne]; simpl.
    + now rewrite String.eqb_refl.
    + destruct (String.eqb_spec k' k); [contradiction | assumption].
Qed.

Lemma get_set_other (d : Dict.t) (k v k' : string) :
  k <> k' -> Dict.get (Dict.set d k v) k' = Dict.get d k'.
Proof.
  intros Hne. induction d as [|[k0 v0] d IH]; simpl.
  - destruct (String.eqb_spec k k'); [contradiction | reflexivity].
  - destruct (String.eqb_spec k0 k) as [->|Hne0]; simpl.
    + destruct (String.eqb_spec k k'); [contradiction | reflexivity].
    + destruct (String.eqb_spec k0 k'); [reflexivity | assumption].
Qed.

(** A key that is present keeps its place under any assignment. *)
Lemma index_set (d : Dict.t) (k v k' : string) (i : nat) :
  Dict.index d k' = Some i -> Dict.index (Dict.set d k v) k' = Some i.
Proof.
  revert i. induction d as [|[k0 v0] d IH]; simpl; intros i; [discriminate|].
  destruct (String.eqb_spec k0 k) as [->|Hne0]; simpl.
  - destruct (String.eqb_spec k k'); [trivial|]. trivial.
  - destruct (String.eqb_spec k0 k'); [trivial|].
    destruct (Dict.index d k') as [j|]; simpl; [|discriminate].
    intros [= <-]. now rewrite (IH j eq_refl).
Qed.

Lemma index_in (d : Dict.t) (k : string) :
  In k (Dict.keys d) -> exists i, Dict.index d k = Some i.
Proof.
  induction d as [|[k0 v0] d IH]; simpl; [tauto|].
  intros Hin. destruct (String.eqb_spec k0 k) as [->|Hne]; [now exists O|].
  destruct Hin as [|Hin]; [contradiction|].
  destruct (IH Hin) as [i ->]. now exists (S i).
Qed.

(** In a dictionary, a key that is present is there once. *)
Lemma count_wf (d : Dict.t) (k : string) :
  Dict.wf d -> In k (Dict.keys d) -> Dict.count d k = 1%nat.
Proof.
  unfold Dict.wf, Dict.count.
  induction d as [|[k0 v0] d IH]; simpl; [tauto|].
  intros Hwf Hin. inversion Hwf as [|? ? Hnin Hwf']; subst.
  destruct (String.eqb_spec k0 k) as [->|Hne]; simpl.
  - f_equal. clear IH Hwf Hwf' Hin.
    induction d as [|[k1 v1] d IH]; simpl in *; [reflexivity|].
    destruct (String.eqb_spec k1 k) as [->|Hne]; [tauto|]. apply IH. tauto.
  - apply IH; [assumption|]. destruct Hin; [contradiction | assumption].
Qed.

(** Assigning keys that are all different to the empty dictionary keeps
    the items in the order of the assignments. *)
Lemma of_items_nodup (items : list (string * string)) :
  NoDup (map fst items) -> Dict.of_items items = items.
Proof.
  unfold Dict.of_items, Dict.empty.
  assert (G : forall d, NoDup (map fst (d ++ items)%list) ->
            fold_left (fun d kv => Dict.set d (fst kv) (snd kv)) items d
            = (d ++ items)%list).
  { induction items as [|[k v] items IH]; intros d Hnd; simpl.
    - now rewrite app_nil_r.
    - rewrite set_notin.
      + rewrite IH; rewrite <- app_assoc; [reflexivity | exact Hnd].
      + rewrite map_app in Hnd. simpl in Hnd.
        apply NoDup_remove_2 in Hnd. intros Hin. apply Hnd.
        apply in_or_app. now left. }
  intros Hnd. now apply (G []).
Qed.

End DictFacts.

(** ** The drawing environment *)

Module TikzPictureFacts.

Section Facts.

Context {drawable : Type} `{Drawable drawable}.
Variable TikzStyle : Type.
Variable style_name : TikzStyle -> string.
Variable style_code : TikzStyle -> string.
Variable new_TikzStyle : string -> string -> TikzStyle.
Variable angle : Type.
Variable str_angle : angle -> string.

Local Abbreviation picture := (@TikzPicture.t drawable angle).
Local Abbreviation draw := (@TikzPicture.draw drawable angle).
Local Abbreviation init := (@TikzPicture.init drawable angle).
Local Abbreviation add_styles := (TikzPicture.add_styles style_name style_code).
Local Abbreviation do_call :=
  (TikzPicture.do_call style_name style_code new_TikzStyle str_angle).
Local Abbreviation do_calls :=
  (TikzPicture.do_calls style_name style_code new_TikzStyle str_angle).
Local Abbreviation style_key s := ("tikz_style:" ++ style_name s).

(** The loop over the drawing objects appends one indented line for each,
    in the order of the sequence. *)
Lemma append_objects_lines (objs : list drawable) :
  forall code,
    TikzPicture.append_objects code objs = code ++ TikzPicture.object_lines objs.
Proof.
  unfold TikzPicture.append_objects, TikzPicture.object_lines.
  induction objs as [|o objs IH]; intros code; simpl.
  - now rewrite append_nil_r.
  - now rewrite IH, append_assoc.
Qed.

(** The layout of the full text, for any picture. *)
Lemma code_layout (tp : picture) :
  TikzPicture.code tp
  = join (Dict.values (TikzPicture._preamble tp))
      ++ TikzPicture.begin_line tp
      ++ TikzPicture.object_lines (TikzPicture.drawing_objects tp)
      ++ TikzPicture.end_line
      ++ join (rev (Dict.values (TikzPicture._postamble tp))).
Proof.
  unfold TikzPicture.code, TikzPicture.begin_line, TikzPicture.end_line.
  rewrite !append_each_join, append_objects_lines, append_nil_l.
  now rewrite !append_assoc.
Qed.

Lemma repr_layout (tp : picture) :
  TikzPicture.repr tp
  = TikzPicture.begin_line tp
      ++ TikzPicture.object_lines (TikzPicture.drawing_objects tp)
      ++ TikzPicture.end_line.
Proof.
  unfold TikzPicture.repr, TikzPicture.begin_line, TikzPicture.end_line.
  rewrite append_objects_lines. now rewrite !append_assoc.
Qed.

(** Drawing touches neither the preamble nor the postamble nor the options. *)
Lemma draw_all_frame (objs : list drawable) :
  forall tp : picture,
    let tp' := fold_left draw objs tp in
    TikzPicture._preamble tp' = TikzPicture._preamble tp /\
    TikzPicture._postamble tp' = TikzPicture._postamble tp /\
    TikzPicture.options tp' = TikzPicture.options tp /\
    TikzPicture.drawing_objects tp' = (TikzPicture.drawing_objects tp ++ objs)%list.
Proof.
  induction objs as [|o objs IH]; intros tp; simpl.
  - now rewrite app_nil_r.
  - destruct (IH (TikzPicture.draw tp o)) as (E1 & E2 & E3 & E4).
    rewrite E1, E2, E3, E4. simpl. now rewrite <- app_assoc.
Qed.

(** Whatever holds of the preamble and is kept by an assignment is kept by
    registering styles and by every call. *)
Lemma add_styles_preamble (P : Dict.t -> Prop) :
  (forall d k v, P d -> P (Dict.set d k v)) ->
  forall styles (tp : picture),
    P (TikzPicture._preamble tp) ->
    P (TikzPicture._preamble (add_styles tp styles)).
Proof.
  intros HP. unfold TikzPicture.add_styles.
  induction styles as [|s styles IH]; intros tp Htp; simpl; [assumption|].
  apply IH. simpl. now apply HP.
Qed.

Lemma do_calls_preamble (P : Dict.t -> Prop) :
  (forall d k v, P d -> P (Dict.set d k v)) ->
  forall cs (tp : picture),
    P (TikzPicture._preamble tp) ->
    P (TikzPicture._preamble (do_calls tp cs)).
Proof.
  intros HP. unfold TikzPicture.do_calls.
  induction cs as [|c cs IH]; intros tp Htp; simpl; [assumption|].
  apply IH. destruct c as [obj|styles|name rules|theta phi]; simpl.
  - assumption.
  - now apply add_styles_preamble.
  - now apply HP.
  - now apply HP.
Qed.

(** The preamble of a picture made by the constructor and changed through
    its methods holds every key once. *)
Lemma reachable_wf (center : bool) (opts : string) cs :
  Dict.wf (TikzPicture._preamble (do_calls (init center opts) cs)).
Proof.
  apply do_calls_preamble.
  - intros d k v. apply DictFacts.wf_set.
  - destruct center; simpl; repeat constructor; simpl; tauto.
Qed.

Lemma style_key_inj (n m : string) : "tikz_style:" ++ n = "tikz_style:" ++ m -> n = m.
Proof. simpl. now intros [= ->]. Qed.

(** C2. The full text of a picture whose preamble and postamble were filled
    by assignments to distinct keys is: the preamble fragments in the order
    they were assigned, the begin line of the tikzpicture, one line for each
    drawing object, the end line of the tikzpicture, and the postamble
    fragments in the reverse of the order they were assigned. *)
Theorem code_emits_preamble_then_reversed_postamble
    (opts : string) (objs : list drawable) (pre post : list (string * string))
    (coords : option (angle * angle)) :
  NoDup (map fst pre) ->
  NoDup (map fst post) ->
  let tp := TikzPicture.mk opts objs (Dict.of_items pre) (Dict.of_items post) coords in
  TikzPicture.code tp
  = join (map snd pre)
      ++ ("\begin{tikzpicture}" ++ brackets opts ++ nl)
      ++ join (map (fun o => "    " ++ code_of o ++ nl) objs)
      ++ ("\end{tikzpicture}" ++ nl)
      ++ join (rev (map snd post)).
Proof.
  intros Hpre Hpost tp. subst tp. rewrite code_layout. simpl.
  now rewrite !DictFacts.of_items_nodup by assumption.
Qed.

(** C10. For a picture constructed with [center = False] and then only drawn
    on, [__repr__] and [code()] return the same string. *)
Theorem repr_eq_code_without_preamble (opts : string) (objs : list drawable) :
  let tp := fold_left draw objs (init false opts) in
  TikzPicture.repr tp = TikzPicture.code tp.
Proof.
  intros tp. rewrite repr_layout, code_layout.
  destruct (draw_all_frame objs (init false opts))
    as (E1 & E2 & _ & _).
  fold tp in E1, E2. rewrite E1, E2.
  change (join (Dict.values (TikzPicture._preamble (init false opts)))) with "".
  change (join (rev (Dict.values (TikzPicture._postamble (init false opts))))) with "".
  now rewrite append_nil_l, !append_nil_r.
Qed.

(** C5. Registering a style assigns the preamble entry whose key is made of
    the style's name.  After two styles of the same name were registered,
    with any calls in between, the preamble holds one entry for that name,
    the entry holds the code of the later style, and it stands where the
    first registration put it; registering a style of another name does
    not change it. *)
Theorem add_styles_same_name_last_write_wins
    (tp : picture) (s1 s2 : TikzStyle) (cs : list (TikzPicture.call TikzStyle angle)) :
  Dict.wf (TikzPicture._preamble tp) ->
  style_name s1 = style_name s2 ->
  let key := style_key s2 in
  let tp1 := add_styles tp [s1] in
  let tp2 := add_styles (do_calls tp1 cs) [s2] in
  Dict.count (TikzPicture._preamble tp2) key = 1%nat /\
  Dict.get (TikzPicture._preamble tp2) key = Some (style_code s2) /\
  (exists i, Dict.index (TikzPicture._preamble tp1) key = Some i /\
             Dict.index (TikzPicture._preamble tp2) key = Some i) /\
  (forall s3, style_name s3 <> style_name s2 ->
     Dict.get (TikzPicture._preamble (add_styles tp2 [s3])) key = Some (style_code s2)).
Proof.
  intros Hwf Hname key tp1 tp2.
  assert (E1 : TikzPicture._preamble tp1
               = Dict.set (TikzPicture._preamble tp) key (style_code s1)).
  { subst tp1 key. simpl. now rewrite Hname. }
  assert (E2 : TikzPicture._preamble tp2
               = Dict.set (TikzPicture._preamble (do_calls tp1 cs)) key (style_code s2))
    by reflexivity.
  assert (Hwf2 : Dict.wf (TikzPicture._preamble tp2)).
  { unfold tp2, tp1. apply add_styles_preamble; [intros; now apply DictFacts.wf_set|].
    apply do_calls_preamble; [intros; now apply DictFacts.wf_set|].
    apply add_styles_preamble; [intros; now apply DictFacts.wf_set | assumption]. }
  assert (Hin2 : In key (Dict.keys (TikzPicture._preamble tp2))).
  { rewrite E2. apply DictFacts.in_keys_set. }
  split; [now apply DictFacts.count_wf|].
  split; [rewrite E2; apply DictFacts.get_set_same|].
  split.
  - destruct (DictFacts.index_in (TikzPicture._preamble tp1) key) as [i Hi].
    { rewrite E1. apply DictFacts.in_keys_set. }
    exists i. split; [assumption|].
    unfold tp2. apply add_styles_preamble; [intros; now apply DictFacts.index_set|].
    apply do_calls_preamble; [intros; now apply DictFacts.index_set | assumption].
  - intros s3 Hne. simpl. rewrite DictFacts.get_set_other.
    + apply DictFacts.get_set_same.
    + intros Hk. apply Hne. now apply style_key_inj.
Qed.

End Facts.

End TikzPictureFacts.

(** ** Binary64 numbers *)

Module FloatFacts.

Import SpecFloat.








End FloatFacts.

(** ** Python arithmetic *)

Module NumFacts.

Import SpecFloat PyNum PrimFloat.





Lemma tied_sym (a b : PyArith.num) : PyArith.tied a b -> PyArith.tied b a.
Proof.
  intros [->|(f & g & s & s' & -> & -> & Ef & Eg)]; [now left|].
  right. now exists g, f, s', s.
Qed.

Lemma tied_same (a b : PyArith.num) : PyArith.tied a b -> PyArith.same a b.
Proof.
  intros [->|(f & g & s & s' & -> & -> & Ef & Eg)]; [now left|].
  right. simpl. rewrite FloatAxioms.eqb_spec, Ef, Eg. reflexivity.
Qed.






(** What an axis holds. *)
Lemma axis_inv (a b lo hi mid e : PyArith.num) :
  Rectangle.axis a b = inr (lo, hi, mid, e) ->
  lo = PyArith.min a b /\ hi = PyArith.max a b /\
  (let? sum := PyArith.add (PyArith.min a b) (PyArith.max a b) in PyArith.half sum)
  = inr mid /\
  Result.map PyArith.abs (PyArith.sub b a) = inr e.
Proof.
  unfold Rectangle.axis, Result.map.
  destruct (PyArith.sub b a) as [?|d]; cbn [Result.bind]; [discriminate|].
  destruct (PyArith.add _ _) as [?|sum]; cbn [Result.bind]; [discriminate|].
  destruct (PyArith.half sum) as [?|m]; cbn [Result.bind]; [discriminate|].
  intros [= <- <- <- <-]. repeat split.
Qed.

End NumFacts.

(** ** Rectangles *)

Module RectangleFacts.

Import PyNum PrimFloat.

Open Scope Z_scope.

(** The recomputation works axis by axis. *)
Lemma recompute_axes (l r : Point.t) (opts : string) :
  Rectangle.recompute l r opts
  = let? ax := Rectangle.axis (Point.x l) (Point.x r) in
    let? ay := Rectangle.axis (Point.y l) (Point.y r) in
    inr (Rectangle.build l r opts ax ay).
Proof.
  unfold Rectangle.recompute, Rectangle.axis.
  destruct (PyArith.sub (Point.x r) (Point.x l)); cbn [Result.bind]; [reflexivity|].
  destruct (PyArith.add (PyArith.min (Point.x l) (Point.x r)) _);
    cbn [Result.bind]; [reflexivity|].
  destruct (PyArith.half _); cbn [Result.bind]; [reflexivity|].
  destruct (PyArith.sub (Point.y r) (Point.y l)); cbn [Result.bind]; [reflexivity|].
  destruct (PyArith.add (PyArith.min (Point.y l) (Point.y r)) _);
    cbn [Result.bind]; [reflexivity|].
  destruct (PyArith.half _); cbn [Result.bind]; reflexivity.
Qed.

(** A rectangle that the recomputation gives. *)
Lemma recompute_inv (l r : Point.t) (opts : string) (rect : Rectangle.t) :
  Rectangle.recompute l r opts = inr rect ->
  exists ax ay,
    Rectangle.axis (Point.x l) (Point.x r) = inr ax /\
    Rectangle.axis (Point.y l) (Point.y r) = inr ay /\
    rect = Rectangle.build l r opts ax ay.
Proof.
  rewrite recompute_axes.
  destruct (Rectangle.axis (Point.x l) (Point.x r)) as [?|ax]; cbn [Result.bind];
    [discriminate|].
  destruct (Rectangle.axis (Point.y l) (Point.y r)) as [?|ay]; cbn [Result.bind];
    [discriminate|].
  intros [= <-]. now exists ax, ay.
Qed.

(** It has the corners and the options given, and the derived attributes
    that the spec gives for these corners. *)
Lemma recompute_derived (l r : Point.t) (opts : string) (rect : Rectangle.t) :
  Rectangle.recompute l r opts = inr rect ->
  Rectangle.left_corner rect = l /\ Rectangle.right_corner rect = r /\
  Rectangle.options rect = opts /\ Rectangle.derived_from l r rect.
Proof.
  intros H. destruct (@recompute_inv _ _ _ _ H) as ([[[lox hix] mx] w] & [[[loy hiy] my] h]
                                                 & Hx & Hy & ->).
  apply NumFacts.axis_inv in Hx as (-> & -> & Hmx & Hw).
  apply NumFacts.axis_inv in Hy as (-> & -> & Hmy & Hh).
  unfold Rectangle.derived_from. cbn. repeat split; assumption.
Qed.










(** C4. Whatever the rectangle held before, when the assignment of a corner
    returns, the corner reads as the new point, the other corner and the
    options are unchanged, and every derived attribute is the one computed
    from the new corner and the other corner: the height and the width are
    the absolute differences of their coordinates, and the center and the
    four compass points come from their least and greatest coordinates. *)
Theorem corner_assignment_leaves_nothing_stale (rect : Rectangle.t) (p : Point.t) :
  (forall rect', Rectangle.set_left_corner rect p = inr rect' ->
     Rectangle.left_corner rect' = p /\
     Rectangle.right_corner rect' = Rectangle.right_corner rect /\
     Rectangle.options rect' = Rectangle.options rect /\
     Rectangle.derived_from p (Rectangle.right_corner rect) rect') /\
  (forall rect', Rectangle.set_right_corner rect p = inr rect' ->
     Rectangle.left_corner rect' = Rectangle.left_corner rect /\
     Rectangle.right_corner rect' = p /\
     Rectangle.options rect' = Rectangle.options rect /\
     Rectangle.derived_from (Rectangle.left_corner rect) p rect').
Proof.
  unfold Rectangle.set_left_corner, Rectangle.set_right_corner.
  split; intros rect' H; exact (@recompute_derived _ _ _ _ H).
Qed.

(** With float coordinates the recomputation raises nothing: the
    constructor and the assignment of a corner give a rectangle when both
    corners hold floats. *)
Lemma recompute_of_floats (lx ly rx ry : float) (opts : string) :
  exists rect,
    Rectangle.recompute (Point.mk (PyFloat lx) (PyFloat ly))
                        (Point.mk (PyFloat rx) (PyFloat ry)) opts = inr rect.
Proof.
  unfold Rectangle.recompute, PyArith.min, PyArith.max. cbn [Point.x Point.y].
  destruct (PyArith.lt (PyFloat rx) (PyFloat lx)), (PyArith.lt (PyFloat lx) (PyFloat rx)),
           (PyArith.lt (PyFloat ry) (PyFloat ly)), (PyArith.lt (PyFloat ly) (PyFloat ry));
    cbn; eexists; reflexivity.
Qed.

(** The case of the tests: the left corner (2,2) of the rectangle with
    right corner (3,4) becomes (0,0), or its right corner becomes (4,4). *)
Example left_corner_assignment_example (str_float : float -> string) :
  exists rect0 rect,
    Rectangle.new (Point.mk (PyInt 2) (PyInt 2)) (Point.mk (PyInt 3) (PyInt 4)) "Blue"
    = inr rect0 /\
    Rectangle.set_left_corner rect0 (Point.mk (PyInt 0) (PyInt 0)) = inr rect /\
    Point.eqb (Rectangle.left_corner rect) (Point.mk (PyInt 0) (PyInt 0)) = true /\
    PyArith.eq (Rectangle.height rect) (PyInt 4) = true /\
    PyArith.eq (Rectangle.width rect) (PyInt 3) = true /\
    Rectangle.code str_float rect = "\draw[Blue] (0, 0) rectangle (3, 4);".
Proof.
  do 2 eexists. split; [lazy; reflexivity|]. split; [lazy; reflexivity|].
  repeat split.
Qed.

Example right_corner_assignment_example (str_float : float -> string) :
  exists rect0 rect,
    Rectangle.new (Point.mk (PyInt 2) (PyInt 2)) (Point.mk (PyInt 3) (PyInt 4)) "Blue"
    = inr rect0 /\
    Rectangle.set_right_corner rect0 (Point.mk (PyInt 4) (PyInt 4)) = inr rect /\
    Point.eqb (Rectangle.right_corner rect) (Point.mk (PyInt 4) (PyInt 4)) = true /\
    PyArith.eq (Rectangle.height rect) (PyInt 2) = true /\
    PyArith.eq (Rectangle.width rect) (PyInt 2) = true /\
    Rectangle.code str_float rect = "\draw[Blue] (2, 2) rectangle (4, 4);".
Proof.
  do 2 eexists. split; [lazy; reflexivity|]. split; [lazy; reflexivity|].
  repeat split.
Qed.

(** C7. Constructing the rectangle from (2,2), (3,4) and the options Blue
    raises nothing; the rectangle has width 1, height 2, center (2.5, 3.0),
    north (2.5, 4), south (2.5, 2), east (3, 3), west (2, 3), each compared
    as Python's [==] does, and its code is the draw command of the spec,
    whatever the text of a float is. *)
Theorem rectangle_constructor_example (str_float : float -> string) :
  exists rect,
    Rectangle.new (Point.mk (PyInt 2) (PyInt 2)) (Point.mk (PyInt 3) (PyInt 4)) "Blue"
    = inr rect /\
    PyArith.eq (Rectangle.width rect) (PyInt 1) = true /\
    PyArith.eq (Rectangle.height rect) (PyInt 2) = true /\
    Point.eqb (Rectangle.center rect) (Point.mk (PyFloat 2.5) (PyFloat 3.0)) = true /\
    Point.eqb (Rectangle.north rect) (Point.mk (PyFloat 2.5) (PyInt 4)) = true /\
    Point.eqb (Rectangle.south rect) (Point.mk (PyFloat 2.5) (PyInt 2)) = true /\
    Point.eqb (Rectangle.east rect) (Point.mk (PyInt 3) (PyInt 3)) = true /\
    Point.eqb (Rectangle.west rect) (Point.mk (PyInt 2) (PyInt 3)) = true /\
    Rectangle.code str_float rect = "\draw[Blue] (2, 2) rectangle (3, 4);".
Proof.
  eexists. split; [lazy; reflexivity|].
  repeat (split; [vm_compute; reflexivity|]). reflexivity.
Qed.





(** The cases of the tests: the compass points for the four ways of giving
    the corners, and the rectangle of corners (2,2) and (3,4) shifted by
    (1,1) and scaled by 2. *)
Example rectangle_attributes_example :
  Forall (fun made => exists rect,
            made = inr rect /\
            Point.eqb (Rectangle.north rect) (Point.mk (PyFloat 2.5) (PyInt 4)) = true /\
            Point.eqb (Rectangle.east rect) (Point.mk (PyInt 3) (PyInt 3)) = true /\
            Point.eqb (Rectangle.south rect) (Point.mk (PyFloat 2.5) (PyInt 2)) = true /\
            Point.eqb (Rectangle.west rect) (Point.mk (PyInt 2) (PyInt 3)) = true)
    [ Rectangle.new (Point.mk (PyInt 2) (PyInt 2)) (Point.mk (PyInt 3) (PyInt 4)) "";
      Rectangle.new (Point.mk (PyInt 3) (PyInt 2)) (Point.mk (PyInt 2) (PyInt 4)) "";
      Rectangle.new (Point.mk (PyInt 2) (PyInt 4)) (Point.mk (PyInt 3) (PyInt 2)) "";
      Rectangle.new (Point.mk (PyInt 3) (PyInt 4)) (Point.mk (PyInt 2) (PyInt 2)) "" ].
Proof.
  repeat apply Forall_cons; try apply Forall_nil;
    (eexists; split; [lazy; reflexivity|]; repeat split).
Qed.

Example rectangle_shift_example (str_float : float -> string) :
  exists rect,
    Rectangle.made (Point.mk (PyInt 2) (PyInt 2)) (Point.mk (PyInt 3) (PyInt 4)) "Blue"
                   [Rectangle.Shift (PyInt 1) (PyInt 1)] = inr rect /\
    Point.eqb (Rectangle.left_corner rect) (Point.mk (PyInt 3) (PyInt 3)) = true /\
    Point.eqb (Rectangle.right_corner rect) (Point.mk (PyInt 4) (PyInt 5)) = true /\
    Rectangle.code str_float rect = "\draw[Blue] (3, 3) rectangle (4, 5);".
Proof. eexists. split; [lazy; reflexivity|]. repeat split. Qed.

Example rectangle_scale_example (str_float : float -> string) :
  exists rect,
    Rectangle.made (Point.mk (PyInt 2) (PyInt 2)) (Point.mk (PyInt 3) (PyInt 4)) "Blue"
                   [Rectangle.Scale (PyInt 2)] = inr rect /\
    Point.eqb (Rectangle.left_corner rect) (Point.mk (PyInt 4) (PyInt 4)) = true /\
    Point.eqb (Rectangle.right_corner rect) (Point.mk (PyInt 6) (PyInt 8)) = true /\
    Rectangle.code str_float rect = "\draw[Blue] (4, 4) rectangle (6, 8);".
Proof. eexists. split; [lazy; reflexivity|]. repeat split. Qed.

End RectangleFacts.

(** ** Saving a PNG *)

Module SavePngFacts.

Open Scope Z_scope.

Section Pages.

Variables path image : Type.
Variable repr_path : path -> string.

Local Abbreviation select_page := (@SavePng.select_page path image repr_path).
Local Abbreviation warning := (SavePng.warning repr_path).

Lemma nth_error_last (front : list image) (page : image) :
  nth_error (front ++ [page]) (List.length front) = Some page.
Proof.
  rewrite nth_error_app2 by lia. now rewrite Nat.sub_diag.
Qed.

Lemma getitem_nonneg (l : list image) (i : Z) (a : image) :
  0 <= i -> nth_error l (Z.to_nat i) = Some a -> SavePng.getitem l i = IO.ret a.
Proof.
  intros Hi Hnth. unfold SavePng.getitem.
  destruct (Z.ltb_spec i 0) as [Hneg|_]; [lia|].
  destruct (Z.ltb_spec i 0) as [Hneg|_]; [lia|].
  now rewrite Hnth.
Qed.

(** The line that tells which page is converted is not the warning. *)
Lemma converting_is_no_warning (pdf_fp : path) (ind total : Z) :
  SavePng.converting ind total <> warning pdf_fp.
Proof. unfold SavePng.converting, SavePng.warning. simpl. discriminate. Qed.

End Pages.

Section Crop.

Variable threshold : Z.
Variables start_sentinel end_sentinel : Z.
Hypothesis threshold_range : 0 < threshold <= 255.

Local Abbreviation find_start := (Helpers.find_image_start_boundary threshold start_sentinel).
Local Abbreviation find_end := (Helpers.find_image_end_boundary threshold end_sentinel).

(** On a black and white image every threshold from 1 to 255 finds the
    same rows. *)
Lemma has_ink_black_or_white (row : list Z) :
  forallb (fun v => (v =? 0) || (v =? 255)) row = true ->
  Helpers.has_ink threshold row = Helpers.has_ink 1 row.
Proof.
  unfold Helpers.has_ink.
  induction row as [|v row IH]; simpl; [reflexivity|].
  intros Hbw. apply andb_true_iff in Hbw as [Hv Hrow]. rewrite (IH Hrow).
  f_equal. apply orb_true_iff in Hv as [Hv|Hv]; apply Z.eqb_eq in Hv; subst v.
  - destruct (Z.ltb_spec 0 threshold); [reflexivity | lia].
  - destruct (Z.ltb_spec 255 threshold); [lia | reflexivity].
Qed.

Lemma first_ink_black_or_white (g : grid) :
  black_or_white g = true ->
  forall i, Helpers.first_ink_from threshold i g = Helpers.first_ink_from 1 i g.
Proof.
  unfold black_or_white.
  induction g as [|row g IH]; simpl; [reflexivity|].
  intros Hbw i. apply andb_true_iff in Hbw as [Hrow Hg].
  now rewrite (has_ink_black_or_white _ Hrow), (IH Hg).
Qed.

Lemma last_ink_black_or_white (g : grid) :
  black_or_white g = true ->
  forall i, Helpers.last_ink_from threshold i g = Helpers.last_ink_from 1 i g.
Proof.
  unfold black_or_white.
  induction g as [|row g IH]; simpl; [reflexivity|].
  intros Hbw i. apply andb_true_iff in Hbw as [Hrow Hg].
  now rewrite (has_ink_black_or_white _ Hrow), (IH Hg).
Qed.

Lemma find_start_black_or_white (g : grid) :
  black_or_white g = true ->
  find_start g = Helpers.find_image_start_boundary 1 start_sentinel g.
Proof.
  intros Hbw. unfold Helpers.find_image_start_boundary.
  now rewrite first_ink_black_or_white.
Qed.

Lemma find_end_black_or_white (g : grid) :
  black_or_white g = true ->
  find_end g = Helpers.find_image_end_boundary 1 end_sentinel g.
Proof.
  intros Hbw. unfold Helpers.find_image_end_boundary.
  now rewrite last_ink_black_or_white.
Qed.

(** C1, on the code as it is.  The page [wide_page] has 10 rows and 100
    columns and its drawing is in row 9.  The crop window that [save_png]
    computes for it has rows 7 to 11 and columns 20 to 80: the padding
    above and below is 2, which is 2% of the width and not of the height,
    and the lower bound 11 is beyond the 10 rows of the image. *)
Theorem crop_window_pads_by_width :
  List.length wide_page = 10%nat /\
  ncols wide_page = 100%nat /\
  find_start wide_page = 9 /\
  find_end wide_page = 9 /\
  IO.run (SavePng.crop_window find_start find_end wide_page)
  = ([], inr (SavePng.mk_window 7 11 20 80)).
Proof.
  assert (Hbw : black_or_white wide_page = true) by (vm_compute; reflexivity).
  assert (HbwT : black_or_white (transpose wide_page) = true)
    by (vm_compute; reflexivity).
  split; [reflexivity|]. split; [reflexivity|].
  unfold SavePng.crop_window.
  rewrite !(find_start_black_or_white _ Hbw), !(find_end_black_or_white _ Hbw),
    !(find_start_black_or_white _ HbwT), !(find_end_black_or_white _ HbwT).
  repeat split; vm_compute; reflexivity.
Qed.

(** On the page [tall_page], of 100 rows and 10 columns with its drawing in
    row 99, the window ends at row 10, the number of columns: the drawing is
    left out. *)
Lemma crop_window_clamps_to_width :
  List.length tall_page = 100%nat /\
  ncols tall_page = 10%nat /\
  find_end tall_page = 99 /\
  IO.run (SavePng.crop_window find_start find_end tall_page)
  = ([], inr (SavePng.mk_window 98 10 2 8)).
Proof.
  assert (Hbw : black_or_white tall_page = true) by (vm_compute; reflexivity).
  assert (HbwT : black_or_white (transpose tall_page) = true)
    by (vm_compute; reflexivity).
  split; [reflexivity|]. split; [reflexivity|].
  unfold SavePng.crop_window.
  rewrite !(find_start_black_or_white _ Hbw), !(find_end_black_or_white _ Hbw),
    !(find_start_black_or_white _ HbwT), !(find_end_black_or_white _ HbwT).
  repeat split; vm_compute; reflexivity.
Qed.

End Crop.

End SavePngFacts.

(** ** The theorems at concrete inputs *)

(** A centered picture with one style and one more closing fragment, and a
    line drawn on it. *)
Lemma code_emits_in_order_example :
  let pre := [("center", "\begin{center}" ++ nl); ("tikz_style:thick", "\tikzset{thick}" ++ nl)] in
  let post := [("center", "\end{center}" ++ nl); ("group", "\endgroup" ++ nl)] in
  NoDup (map fst pre) /\ NoDup (map fst post) /\
  TikzPicture.code
    (TikzPicture.mk "scale=2" ["\draw (0, 0) -- (1, 1);"]
       (Dict.of_items pre) (Dict.of_items post) (@None (Z * Z)))
  = join ["\begin{center}" ++ nl; "\tikzset{thick}" ++ nl]
      ++ ("\begin{tikzpicture}" ++ brackets "scale=2" ++ nl)
      ++ join (map (fun o => "    " ++ code_of o ++ nl) ["\draw (0, 0) -- (1, 1);"])
      ++ ("\end{tikzpicture}" ++ nl)
      ++ join ["\endgroup" ++ nl; "\end{center}" ++ nl].
Proof.
  assert (Hpre : NoDup ["center"; "tikz_style:thick"]).
  { repeat constructor; simpl; intuition discriminate. }
  assert (Hpost : NoDup ["center"; "group"]).
  { repeat constructor; simpl; intuition discriminate. }
  split; [exact Hpre|]. split; [exact Hpost|].
  exact (TikzPictureFacts.code_emits_preamble_then_reversed_postamble
           "scale=2" ["\draw (0, 0) -- (1, 1);"]
           [("center", "\begin{center}" ++ nl); ("tikz_style:thick", "\tikzset{thick}" ++ nl)]
           [("center", "\end{center}" ++ nl); ("group", "\endgroup" ++ nl)]
           (@None (Z * Z)) Hpre Hpost).
Defined.

(** The style named axis registered twice on a fresh picture, with a line
    drawn and the viewing angle set in between. *)
Lemma add_styles_same_name_example :
  let style_name := @fst string string in
  let style_code := @snd string string in
  let new_style := fun name rules : string => (name, rules) in
  let tp := @TikzPicture.init string Z false "" in
  let cs := [TikzPicture.Draw example_style Z "\draw (0, 0) -- (1, 1);";
             TikzPicture.SetTdplotsetmaincoords (drawable := string) example_style 70%Z 110%Z] in
  let tp1 := TikzPicture.add_styles style_name style_code tp [("axis", "A1")] in
  let tp2 := TikzPicture.add_styles style_name style_code
               (TikzPicture.do_calls style_name style_code new_style str_int tp1 cs)
               [("axis", "A2")] in
  Dict.wf (TikzPicture._preamble tp) /\
  Dict.count (TikzPicture._preamble tp2) "tikz_style:axis" = 1%nat /\
  Dict.get (TikzPicture._preamble tp2) "tikz_style:axis" = Some "A2" /\
  Dict.index (TikzPicture._preamble tp1) "tikz_style:axis" = Some 1%nat /\
  Dict.index (TikzPicture._preamble tp2) "tikz_style:axis" = Some 1%nat.
Proof.
  assert (Hwf : Dict.wf (TikzPicture._preamble (@TikzPicture.init string Z false ""))).
  { repeat constructor; simpl; tauto. }
  split; [exact Hwf|].
  destruct (TikzPictureFacts.add_styles_same_name_last_write_wins
              (@fst string string) (@snd string string)
              (fun name rules : string => (name, rules)) str_int
              (@TikzPicture.init string Z false "") ("axis", "A1") ("axis", "A2")
              [TikzPicture.Draw example_style Z "\draw (0, 0) -- (1, 1);";
               TikzPicture.SetTdplotsetmaincoords (drawable := string) example_style 70%Z 110%Z]
              Hwf eq_refl)
    as (Hcount & Hget & _ & _).
  split; [exact Hcount|]. split; [exact Hget|]. split; reflexivity.
Defined.

Module RectangleExamples.

Import PyNum PrimFloat.

Open Scope Z_scope.


(** A rectangle whose stored attributes are all wrong for its corners (2,2)
    and (3,4); its left corner becomes (0,0). *)
Lemma corner_assignment_leaves_nothing_stale_example :
  let zero := Point.mk (PyInt 0) (PyInt 0) in
  let stale := Rectangle.mk (Point.mk (PyInt 2) (PyInt 2)) (Point.mk (PyInt 3) (PyInt 4))
                 "Blue" (PyInt 42) (PyInt 42) zero zero zero zero zero in
  exists rect,
    Rectangle.set_left_corner stale zero = inr rect /\
    Rectangle.left_corner rect = zero /\
    Rectangle.right_corner rect = Point.mk (PyInt 3) (PyInt 4) /\
    Rectangle.options rect = "Blue" /\
    Rectangle.height rect = PyInt 4 /\ Rectangle.width rect = PyInt 3 /\
    Rectangle.derived_from zero (Point.mk (PyInt 3) (PyInt 4)) rect.
Proof.
  intros zero stale.
  let v := eval vm_compute in (Rectangle.set_left_corner stale zero) in
  match v with
  | inr ?rect =>
      exists rect;
      assert (Hset : Rectangle.set_left_corner stale zero = inr rect)
        by (vm_compute; reflexivity)
  end.
  split; [exact Hset|].
  destruct (proj1 (RectangleFacts.corner_assignment_leaves_nothing_stale stale zero) _ Hset)
    as (Hl & Hr & Ho & Hd).
  split; [exact Hl|]. split; [exact Hr|]. split; [exact Ho|].
  split; [reflexivity|]. split; [reflexivity|]. exact Hd.
Defined.



End RectangleExamples.

(** The crop window of the wide page, with pixels below 128 counted as
    drawn. *)
Lemma crop_window_pads_by_width_at_128 :
  (0 < 128 <= 255)%Z /\
  IO.run (SavePng.crop_window (Helpers.find_image_start_boundary 128 0)
                              (Helpers.find_image_end_boundary 128 0) wide_page)
  = ([], inr (SavePng.mk_window 7 11 20 80)).
Proof.
  assert (Hrange : (0 < 128 <= 255)%Z) by lia.
  split; [exact Hrange|].
  apply (SavePngFacts.crop_window_pads_by_width 0 0 Hrange).
Defined.

(** ** More on dictionaries *)

Module DictMore.

Lemma set_set_same (d : Dict.t) (k v v' : string) :
  Dict.set (Dict.set d k v) k v' = Dict.set d k v'.
Proof.
  induction d as [|[k0 v0] d IH]; simpl.
  - now rewrite String.eqb_refl.
  - destruct (String.eqb_spec k0 k) as [->|Hne]; simpl.
    + now rewrite String.eqb_refl.
    + destruct (String.eqb_spec k0 k); [contradiction | now rewrite IH].
Qed.

Lemma get_notin (d : Dict.t) (k : string) :
  ~ In k (Dict.keys d) -> Dict.get d k = None.
Proof.
  induction d as [|[k0 v0] d IH]; simpl; [reflexivity|].
  intros Hnin. destruct (String.eqb_spec k0 k) as [->|Hne]; [tauto|].
  apply IH. tauto.
Qed.

(** Two dictionaries with the same keys in the same order and the same
    value for every key are the same. *)
Lemma ext (d d' : Dict.t) :
  Dict.wf d -> Dict.keys d = Dict.keys d' ->
  (forall k, Dict.get d k = Dict.get d' k) -> d = d'.
Proof.
  unfold Dict.wf. revert d'.
  induction d as [|[k v] d IH]; intros [|[k' v'] d']; simpl; try discriminate;
    [reflexivity|].
  intros Hwf [= <- Hkeys] Hget. inversion Hwf as [|? ? Hnin Hwf']; subst.
  pose proof (Hget k) as Hk. rewrite String.eqb_refl in Hk. injection Hk as <-.
  f_equal. apply IH; [assumption | assumption |].
  intros k0. destruct (String.eqb_spec k k0) as [<-|Hne].
  - rewrite !get_notin; [reflexivity | now rewrite <- Hkeys | assumption].
  - pose proof (Hget k0) as Hk0.
    destruct (String.eqb_spec k k0); [contradiction | assumption].
Qed.

(** An assignment to a key that is present changes its entry in place. *)
Lemma set_at (d1 d2 : Dict.t) (k old v : string) :
  ~ In k (Dict.keys d1) ->
  Dict.set (d1 ++ (k, old) :: d2)%list k v = (d1 ++ (k, v) :: d2)%list.
Proof.
  induction d1 as [|[k0 v0] d1 IH]; simpl; intros Hnin.
  - now rewrite String.eqb_refl.
  - destruct (String.eqb_spec k0 k) as [->|Hne]; [tauto|].
    f_equal. apply IH. tauto.
Qed.

End DictMore.

(** ** More on the drawing environment *)

Module TikzPictureMore.

Section More.

Context {drawable : Type} `{Drawable drawable}.
Variable TikzStyle : Type.
Variable style_name : TikzStyle -> string.
Variable style_code : TikzStyle -> string.
Variable new_TikzStyle : string -> string -> TikzStyle.
Variable angle : Type.
Variable str_angle : angle -> string.

Local Abbreviation picture := (@TikzPicture.t drawable angle).
Local Abbreviation call := (@TikzPicture.call drawable TikzStyle angle).
Local Abbreviation init := (@TikzPicture.init drawable angle).
Local Abbreviation add_styles := (TikzPicture.add_styles style_name style_code).
Local Abbreviation set_tdplotsetmaincoords :=
  (@TikzPicture.set_tdplotsetmaincoords drawable angle str_angle).
Local Abbreviation do_call :=
  (TikzPicture.do_call style_name style_code new_TikzStyle str_angle).
Local Abbreviation do_calls :=
  (TikzPicture.do_calls style_name style_code new_TikzStyle str_angle).
Local Abbreviation assigned_keys := (Calls.assigned_keys style_name new_TikzStyle (angle := angle)).
Local Abbreviation drawn := (@Calls.drawn drawable TikzStyle angle).

(** Registering styles assigns the preamble and nothing else. *)
Lemma add_styles_frame (styles : list TikzStyle) :
  forall tp : picture,
    TikzPicture._postamble (add_styles tp styles) = TikzPicture._postamble tp /\
    TikzPicture.options (add_styles tp styles) = TikzPicture.options tp /\
    TikzPicture.drawing_objects (add_styles tp styles) = TikzPicture.drawing_objects tp /\
    TikzPicture.tdplotsetmaincoords (add_styles tp styles)
    = TikzPicture.tdplotsetmaincoords tp.
Proof.
  unfold TikzPicture.add_styles.
  induction styles as [|s styles IH]; intros tp; cbn [fold_left]; [tauto|].
  match goal with
  | |- context [fold_left _ styles ?x] => destruct (IH x) as (E1 & E2 & E3 & E4)
  end.
  now rewrite E1, E2, E3, E4.
Qed.

(** The preamble after styles were registered, as assignments in turn. *)
Lemma add_styles_preamble_eq (styles : list TikzStyle) :
  forall tp : picture,
    TikzPicture._preamble (add_styles tp styles)
    = fold_left (fun d style =>
                   Dict.set d ("tikz_style:" ++ style_name style) (style_code style))
                styles (TikzPicture._preamble tp).
Proof.
  unfold TikzPicture.add_styles.
  induction styles as [|s styles IH]; intros tp; cbn [fold_left]; [reflexivity|].
  now rewrite IH.
Qed.

(** X1. The full text is the readable text between the preamble fragments
    and the postamble fragments taken backwards. *)
Theorem code_wraps_repr (tp : picture) :
  TikzPicture.code tp
  = join (Dict.values (TikzPicture._preamble tp))
      ++ TikzPicture.repr tp
      ++ join (rev (Dict.values (TikzPicture._postamble tp))).
Proof.
  rewrite TikzPictureFacts.code_layout, TikzPictureFacts.repr_layout.
  now rewrite !append_assoc.
Qed.

(** What calls leave alone. *)
Lemma do_calls_frame (cs : list call) :
  forall tp : picture,
    TikzPicture.options (do_calls tp cs) = TikzPicture.options tp /\
    TikzPicture._postamble (do_calls tp cs) = TikzPicture._postamble tp /\
    TikzPicture.drawing_objects (do_calls tp cs)
    = (TikzPicture.drawing_objects tp ++ drawn cs)%list.
Proof.
  unfold TikzPicture.do_calls.
  induction cs as [|c cs IH]; intros tp; simpl.
  - now rewrite app_nil_r.
  - destruct (IH (do_call tp c)) as (E1 & E2 & E3). rewrite E1, E2, E3.
    destruct c as [obj|styles|name rules|theta phi]; simpl.
    + now rewrite <- app_assoc.
    + destruct (add_styles_frame styles tp) as (F1 & F2 & F3 & _).
      now rewrite F1, F2, F3.
    + tauto.
    + tauto.
Qed.

(** X2. No sequence of calls changes the options or the postamble of a
    picture; its drawing objects are the former ones followed by the drawn
    ones in the order of the calls, so that the readable text gains one
    line for each of them and shows nothing of styles or viewing angles. *)
Theorem calls_only_add_drawing_objects (tp : picture) (cs : list call) :
  let tp' := do_calls tp cs in
  TikzPicture.options tp' = TikzPicture.options tp /\
  TikzPicture._postamble tp' = TikzPicture._postamble tp /\
  TikzPicture.drawing_objects tp' = (TikzPicture.drawing_objects tp ++ drawn cs)%list /\
  TikzPicture.repr tp'
  = TikzPicture.begin_line tp
      ++ TikzPicture.object_lines (TikzPicture.drawing_objects tp)
      ++ TikzPicture.object_lines (drawn cs)
      ++ TikzPicture.end_line.
Proof.
  intros tp'. destruct (do_calls_frame cs tp) as (E1 & E2 & E3).
  fold tp' in E1, E2, E3. repeat split; try assumption.
  rewrite TikzPictureFacts.repr_layout, E3. unfold TikzPicture.begin_line.
  rewrite E1. unfold TikzPicture.object_lines. rewrite map_app, join_app.
  now rewrite !append_assoc.
Qed.

(** Whatever holds of the preamble and is kept by the assignment of a key
    of the methods is kept by every call. *)
Lemma do_calls_method_keys (P : Dict.t -> Prop) :
  (forall d k v, Calls.method_key k -> P d -> P (Dict.set d k v)) ->
  forall cs (tp : picture),
    P (TikzPicture._preamble tp) -> P (TikzPicture._preamble (do_calls tp cs)).
Proof.
  intros HP. unfold TikzPicture.do_calls.
  assert (Hstyles : forall styles (tp : picture),
             P (TikzPicture._preamble tp) ->
             P (TikzPicture._preamble (add_styles tp styles))).
  { unfold TikzPicture.add_styles.
    induction styles as [|s styles IH]; intros tp Htp; simpl; [assumption|].
    apply IH. simpl. apply HP; [|assumption]. right. now eexists. }
  induction cs as [|c cs IH]; intros tp Htp; simpl; [assumption|].
  apply IH. destruct c as [obj|styles|name rules|theta phi]; simpl.
  - assumption.
  - now apply Hstyles.
  - apply HP; [|assumption]. right. now eexists.
  - apply HP; [|assumption]. now left.
Qed.

Lemma method_key_not_center (k : string) : Calls.method_key k -> k <> "center".
Proof. intros [->|[name ->]]; simpl; discriminate. Qed.

(** X3. A call leaves every preamble entry that it does not assign as it
    was. *)
Theorem call_keeps_other_entries (tp : picture) (c : call) (k : string) :
  ~ In k (assigned_keys c) ->
  Dict.get (TikzPicture._preamble (do_call tp c)) k
  = Dict.get (TikzPicture._preamble tp) k.
Proof.
  destruct c as [obj|styles|name rules|theta phi]; simpl; intros Hnin.
  - reflexivity.
  - rewrite add_styles_preamble_eq. revert Hnin.
    generalize (TikzPicture._preamble tp) as d.
    induction styles as [|s styles IH]; intros d Hnin; cbn [fold_left];
      [reflexivity|].
    cbn [map In] in Hnin. rewrite IH by tauto.
    apply DictFacts.get_set_other. tauto.
  - apply DictFacts.get_set_other. tauto.
  - apply DictFacts.get_set_other. tauto.
Qed.

(** X4. Calls never move or remove a preamble entry: a key that stands at
    some place of the preamble stands there after any calls. *)
Theorem calls_keep_entry_places (tp : picture) (cs : list call) (k : string) (i : nat) :
  Dict.index (TikzPicture._preamble tp) k = Some i ->
  Dict.index (TikzPicture._preamble (do_calls tp cs)) k = Some i.
Proof.
  intros Hi.
  apply (TikzPictureFacts.do_calls_preamble style_name style_code new_TikzStyle str_angle
           (fun d => Dict.index d k = Some i)); [|assumption].
  intros d k0 v. apply DictFacts.index_set.
Qed.

(** X5. A picture made by the constructor and changed by any calls has the
    entry of the key center first in its preamble and alone in its
    postamble, every other preamble entry being a style or the viewing
    angle.  So its full text is the readable text after the styles and the
    viewing angle, opened by the begin of the center environment and
    closed by its end when the picture is centered. *)
Theorem constructed_picture_layout (center : bool) (opts : string) (cs : list call) :
  let tp := do_calls (init center opts) cs in
  let opening := if center then "\begin{center}" ++ nl else "" in
  let closing := if center then "\end{center}" ++ nl else "" in
  exists rest,
    TikzPicture._preamble tp = ("center", opening) :: rest /\
    Forall Calls.method_key (Dict.keys rest) /\
    TikzPicture._postamble tp = [("center", closing)] /\
    TikzPicture.code tp
    = opening ++ join (Dict.values rest) ++ TikzPicture.repr tp ++ closing.
Proof.
  intros tp opening closing.
  assert (Hpre : exists rest,
             TikzPicture._preamble tp = ("center", opening) :: rest /\
             Forall Calls.method_key (Dict.keys rest)).
  { subst tp. apply do_calls_method_keys.
    - intros d k v Hk (rest & -> & Hrest).
      exists (Dict.set rest k v). split.
      + cbn [Dict.set]. destruct (String.eqb_spec "center" k) as [<-|_]; [|reflexivity].
        now destruct (method_key_not_center Hk).
      + destruct (DictFacts.keys_set rest k v) as [E|[_ E]]; rewrite E; [assumption|].
        apply Forall_app. split; [assumption|].
        apply Forall_cons; [exact Hk | apply Forall_nil].
    - exists []. subst opening. destruct center; simpl; split; (reflexivity || constructor). }
  assert (Hpost : TikzPicture._postamble tp = [("center", closing)]).
  { destruct (do_calls_frame cs (init center opts)) as (_ & E & _).
    fold tp in E. rewrite E. subst closing. now destruct center. }
  destruct Hpre as (rest & Epre & Hrest). exists rest.
  split; [assumption|]. split; [assumption|]. split; [assumption|].
  rewrite TikzPictureFacts.code_layout, TikzPictureFacts.repr_layout, Epre, Hpost.
  cbn [Dict.values map snd rev app join fold_right].
  now rewrite !append_assoc, append_nil_r.
Qed.

(** The value of a key after the assignments of a list of styles. *)
Lemma fold_set_get (styles : list TikzStyle) (key : string) :
  forall d : Dict.t,
    Dict.get (fold_left (fun d style =>
                Dict.set d ("tikz_style:" ++ style_name style) (style_code style))
              styles d) key
    = match Calls.last_code style_name style_code key styles with
      | Some c => Some c
      | None => Dict.get d key
      end.
Proof.
  induction styles as [|s styles IH]; intros d; cbn [fold_left Calls.last_code];
    [reflexivity|].
  rewrite IH.
  destruct (Calls.last_code style_name style_code key styles) as [c|]; [reflexivity|].
  destruct (String.eqb_spec ("tikz_style:" ++ style_name s) key) as [<-|Hne].
  - apply DictFacts.get_set_same.
  - now apply DictFacts.get_set_other.
Qed.

(** X6. After styles were registered in one call, the entry of a style key
    holds the code of the last of these styles that has the key, and is as
    it was when none has it. *)
Theorem add_styles_get (tp : picture) (styles : list TikzStyle) (key : string) :
  Dict.get (TikzPicture._preamble (add_styles tp styles)) key
  = match Calls.last_code style_name style_code key styles with
    | Some c => Some c
    | None => Dict.get (TikzPicture._preamble tp) key
    end.
Proof. rewrite add_styles_preamble_eq. apply fold_set_get. Qed.

Lemma fold_set_keys_mono (styles : list TikzStyle) :
  forall (d : Dict.t) (k : string),
    In k (Dict.keys d) ->
    In k (Dict.keys (fold_left (fun d style =>
            Dict.set d ("tikz_style:" ++ style_name style) (style_code style))
          styles d)).
Proof.
  induction styles as [|s styles IH]; intros d k Hin; cbn [fold_left]; [assumption|].
  apply IH. now apply DictFacts.in_keys_set_mono.
Qed.

Lemma fold_set_keys_in (styles : list TikzStyle) :
  forall (d : Dict.t) (s : TikzStyle),
    In s styles ->
    In ("tikz_style:" ++ style_name s)
       (Dict.keys (fold_left (fun d style =>
            Dict.set d ("tikz_style:" ++ style_name style) (style_code style))
          styles d)).
Proof.
  induction styles as [|s0 styles IH]; intros d s Hin; cbn [fold_left];
    [destruct Hin|].
  destruct Hin as [->|Hin].
  - apply fold_set_keys_mono. apply DictFacts.in_keys_set.
  - now apply IH.
Qed.

Lemma fold_set_keys_present (styles : list TikzStyle) :
  forall d : Dict.t,
    (forall s, In s styles -> In ("tikz_style:" ++ style_name s) (Dict.keys d)) ->
    Dict.keys (fold_left (fun d style =>
         Dict.set d ("tikz_style:" ++ style_name style) (style_code style))
       styles d)
    = Dict.keys d.
Proof.
  induction styles as [|s styles IH]; intros d Hall; cbn [fold_left]; [reflexivity|].
  rewrite IH.
  - apply DictFacts.keys_set_in. apply Hall. now left.
  - intros s' Hs'. apply DictFacts.in_keys_set_mono. apply Hall. now right.
Qed.

Lemma picture_eq (tp tp' : picture) :
  TikzPicture.options tp = TikzPicture.options tp' ->
  TikzPicture.drawing_objects tp = TikzPicture.drawing_objects tp' ->
  TikzPicture._preamble tp = TikzPicture._preamble tp' ->
  TikzPicture._postamble tp = TikzPicture._postamble tp' ->
  TikzPicture.tdplotsetmaincoords tp = TikzPicture.tdplotsetmaincoords tp' ->
  tp = tp'.
Proof. destruct tp, tp'; simpl; intros; subst; reflexivity. Qed.

(** X7. Registering the same styles once more changes nothing of the
    picture. *)
Theorem add_styles_again (tp : picture) (styles : list TikzStyle) :
  Dict.wf (TikzPicture._preamble tp) ->
  add_styles (add_styles tp styles) styles = add_styles tp styles.
Proof.
  intros Hwf.
  destruct (add_styles_frame styles (add_styles tp styles)) as (E1 & E2 & E3 & E4).
  apply picture_eq; try assumption.
  symmetry. apply DictMore.ext.
  - apply TikzPictureFacts.add_styles_preamble; [|assumption].
    intros d k v. apply DictFacts.wf_set.
  - rewrite (add_styles_preamble_eq styles (add_styles tp styles)).
    rewrite fold_set_keys_present; [reflexivity|].
    intros s Hs. rewrite add_styles_preamble_eq. now apply fold_set_keys_in.
  - intros k. rewrite (add_styles_preamble_eq styles (add_styles tp styles)).
    rewrite fold_set_get, add_styles_preamble_eq, fold_set_get.
    now destruct (Calls.last_code style_name style_code k styles).
Qed.

(** X8. Setting the viewing angle stores the directive of the two angles
    under its key and the angles in the picture; setting it again
    overwrites the former setting altogether. *)
Theorem set_tdplotsetmaincoords_overwrites (tp : picture) (theta phi theta' phi' : angle) :
  Dict.get (TikzPicture._preamble (set_tdplotsetmaincoords tp theta phi))
           "tdplotsetmaincoords"
  = Some ("\tdplotsetmaincoords{" ++ str_angle theta ++ "}{" ++ str_angle phi ++ "}" ++ nl) /\
  TikzPicture.tdplotsetmaincoords (set_tdplotsetmaincoords tp theta phi)
  = Some (theta, phi) /\
  set_tdplotsetmaincoords (set_tdplotsetmaincoords tp theta phi) theta' phi'
  = set_tdplotsetmaincoords tp theta' phi'.
Proof.
  split; [apply DictFacts.get_set_same|]. split; [reflexivity|].
  unfold TikzPicture.set_tdplotsetmaincoords.
  cbn [TikzPicture.options TikzPicture.drawing_objects TikzPicture._preamble
       TikzPicture._postamble TikzPicture.tdplotsetmaincoords].
  now rewrite DictMore.set_set_same.
Qed.

(** X18. A style whose key is not yet in the preamble is emitted after every
    fragment that the preamble had, just before the readable text. *)
Theorem add_styles_new_name_emitted_last (tp : picture) (style : TikzStyle) :
  ~ In ("tikz_style:" ++ style_name style) (Dict.keys (TikzPicture._preamble tp)) ->
  TikzPicture.code (add_styles tp [style])
  = join (Dict.values (TikzPicture._preamble tp))
      ++ style_code style
      ++ TikzPicture.repr tp
      ++ join (rev (Dict.values (TikzPicture._postamble tp))).
Proof.
  intros Hnew.
  rewrite TikzPictureFacts.code_layout, TikzPictureFacts.repr_layout.
  unfold TikzPicture.add_styles, TikzPicture.begin_line.
  cbn [fold_left TikzPicture._preamble TikzPicture._postamble TikzPicture.options
       TikzPicture.drawing_objects].
  rewrite DictFacts.set_notin by assumption.
  unfold Dict.values. rewrite map_app, join_app.
  cbn [map snd join fold_right]. now rewrite append_nil_r, !append_assoc.
Qed.

(** X19. A style whose key is in the preamble takes the place of the
    fragment that the key had: the fragments before it and after it are
    emitted as they were. *)
Theorem add_styles_known_name_emitted_in_place
    (tp : picture) (style : TikzStyle) (d1 d2 : Dict.t) (old : string) :
  TikzPicture._preamble tp
  = (d1 ++ (("tikz_style:" ++ style_name style)%string, old) :: d2)%list ->
  ~ In ("tikz_style:" ++ style_name style) (Dict.keys d1) ->
  TikzPicture.code (add_styles tp [style])
  = join (Dict.values d1)
      ++ style_code style
      ++ join (Dict.values d2)
      ++ TikzPicture.repr tp
      ++ join (rev (Dict.values (TikzPicture._postamble tp))).
Proof.
  intros Epre Hfirst.
  rewrite TikzPictureFacts.code_layout, TikzPictureFacts.repr_layout.
  unfold TikzPicture.add_styles, TikzPicture.begin_line.
  cbn [fold_left TikzPicture._preamble TikzPicture._postamble TikzPicture.options
       TikzPicture.drawing_objects].
  rewrite Epre, DictMore.set_at by exact Hfirst.
  unfold Dict.values. rewrite map_app, join_app.
  cbn [map snd join fold_right]. rewrite !append_assoc. reflexivity.
Qed.

End More.

End TikzPictureMore.

(** ** More on saving a PNG *)

Module SavePngMore.

Open Scope Z_scope.

(** The number of columns is what [len(img_data.T)] gives. *)
Lemma length_transpose (g : grid) : List.length (transpose g) = ncols g.
Proof. unfold transpose. now rewrite length_map, length_seq. Qed.

Lemma in_firstn {A : Type} (n : nat) (l : list A) (a : A) :
  In a (firstn n l) -> In a l.
Proof.
  intros Hin. rewrite <- (firstn_skipn n l). apply in_or_app. now left.
Qed.

Lemma in_skipn {A : Type} (n : nat) (l : list A) (a : A) :
  In a (skipn n l) -> In a l.
Proof.
  intros Hin. rewrite <- (firstn_skipn n l). apply in_or_app. now right.
Qed.

(** A slice within the bounds of the list. *)
Lemma slice_in_range {A : Type} (l : list A) (a b : Z) :
  0 <= a <= b -> b <= Z.of_nat (List.length l) ->
  SavePng.slice l a b = firstn (Z.to_nat (b - a)) (skipn (Z.to_nat a) l).
Proof.
  intros Hab Hb. unfold SavePng.slice.
  destruct (Z.ltb_spec a 0) as [Hneg|_]; [lia|].
  destruct (Z.ltb_spec b 0) as [Hneg|_]; [lia|].
  now rewrite !Z.min_l by lia.
Qed.

Lemma slice_length {A : Type} (l : list A) (a b : Z) :
  0 <= a <= b -> b <= Z.of_nat (List.length l) ->
  List.length (SavePng.slice l a b) = Z.to_nat (b - a).
Proof.
  intros Hab Hb. rewrite slice_in_range by assumption.
  rewrite length_firstn, length_skipn. lia.
Qed.

Lemma slice_nth_error {A : Type} (l : list A) (a b : Z) (i : nat) :
  0 <= a <= b -> b <= Z.of_nat (List.length l) ->
  (i < Z.to_nat (b - a))%nat ->
  nth_error (SavePng.slice l a b) i = nth_error l (Z.to_nat a + i).
Proof.
  intros Hab Hb Hi. rewrite slice_in_range by assumption.
  rewrite nth_error_firstn, nth_error_skipn.
  destruct (Nat.ltb_spec i (Z.to_nat (b - a))); [reflexivity | lia].
Qed.

(** A slice whose stop is not after its start is empty. *)
Lemma slice_empty {A : Type} (l : list A) (a b : Z) :
  0 <= b <= a -> SavePng.slice l a b = [].
Proof.
  intros Hba. unfold SavePng.slice.
  destruct (Z.ltb_spec a 0) as [Hneg|_]; [lia|].
  destruct (Z.ltb_spec b 0) as [Hneg|_]; [lia|].
  replace (Z.to_nat (Z.min b (Z.of_nat (List.length l))
                     - Z.min a (Z.of_nat (List.length l)))) with O by lia.
  reflexivity.
Qed.

Section Crop.

Variable pixel : Type.

(** X9. For a window that lies within the image, the cropped array has
    [y_1 - y_0] rows of [x_1 - x_0] pixels, and its pixel at row [i] and
    column [j] is the pixel of the image at row [y_0 + i] and column
    [x_0 + j]. *)
Theorem crop_within_image (img_data : list (list pixel)) (w : SavePng.window) :
  0 <= SavePng.y_0 w <= SavePng.y_1 w ->
  SavePng.y_1 w <= Z.of_nat (List.length img_data) ->
  0 <= SavePng.x_0 w <= SavePng.x_1 w ->
  Forall (fun row => SavePng.x_1 w <= Z.of_nat (List.length row)) img_data ->
  let cropped := SavePng.crop img_data w in
  List.length cropped = Z.to_nat (SavePng.y_1 w - SavePng.y_0 w) /\
  Forall (fun row => List.length row = Z.to_nat (SavePng.x_1 w - SavePng.x_0 w)) cropped /\
  forall i j : nat,
    (i < Z.to_nat (SavePng.y_1 w - SavePng.y_0 w))%nat ->
    (j < Z.to_nat (SavePng.x_1 w - SavePng.x_0 w))%nat ->
    pixel_at cropped i j
    = pixel_at img_data (Z.to_nat (SavePng.y_0 w) + i) (Z.to_nat (SavePng.x_0 w) + j).
Proof.
  intros Hy Hy1 Hx Hrows cropped. subst cropped. unfold SavePng.crop.
  assert (Hsl : Forall (fun row => SavePng.x_1 w <= Z.of_nat (List.length row))
                       (SavePng.slice img_data (SavePng.y_0 w) (SavePng.y_1 w))).
  { rewrite slice_in_range by assumption.
    apply Forall_forall. intros row Hin. apply in_firstn, in_skipn in Hin.
    revert row Hin. now apply Forall_forall. }
  split; [now rewrite length_map, slice_length|].
  split.
  - apply Forall_map. revert Hsl. apply Forall_impl. intros row Hrow.
    now apply slice_length.
  - intros i j Hi Hj. unfold pixel_at.
    rewrite nth_error_map, slice_nth_error by assumption.
    destruct (nth_error img_data (Z.to_nat (SavePng.y_0 w) + i)) as [row|] eqn:Erow;
      [|reflexivity].
    cbn [option_map]. apply slice_nth_error; [assumption | | assumption].
    apply nth_error_In in Erow. revert row Erow. now apply Forall_forall.
Qed.

(** X10. For a window whose lower bound [y_1] is not below its upper bound
    [y_0], the cropped array has no row at all. *)
Theorem crop_of_inverted_window (img_data : list (list pixel)) (w : SavePng.window) :
  0 <= SavePng.y_1 w <= SavePng.y_0 w ->
  SavePng.crop img_data w = [].
Proof. intros Hy. unfold SavePng.crop. now rewrite slice_empty. Qed.

End Crop.

Section Window.

Variables find_image_start_boundary find_image_end_boundary : grid -> Z.

Local Abbreviation crop_window :=
  (SavePng.crop_window find_image_start_boundary find_image_end_boundary).

(** Computing the crop window prints nothing. *)
Lemma crop_window_prints_nothing (img_data : grid) (out : list string) :
  crop_window img_data out = (out, snd (IO.run (crop_window img_data))).
Proof.
  unfold SavePng.crop_window, IO.run, IO.bind, IO.lift, IO.ret.
  repeat match goal with
         | |- context [PyNum.int ?a] => destruct (PyNum.int a); cbn [snd]
         end; reflexivity.
Qed.

Lemma magnitude_not_negative (m : positive) (e : Z) :
  0 <= (if 0 <=? e then Z.pos m * 2 ^ e else Z.pos m / 2 ^ (- e)).
Proof.
  destruct (Z.leb_spec 0 e).
  - apply Z.mul_nonneg_nonneg; [lia|]. now apply Z.pow_nonneg.
  - apply Z.div_pos; [lia|]. apply Z.pow_pos_nonneg; lia.
Qed.

(** [int(max(0, f))] is not negative. *)
Lemma int_max_zero (f : PyNum.t) (z : Z) :
  PyNum.int (PyNum.max (PyNum.PyInt 0) f) = inr z -> 0 <= z.
Proof.
  unfold PyNum.max, PyNum.lt. destruct f as [y|f].
  - destruct (Z.ltb_spec 0 y); cbn [PyNum.int]; intros [= <-]; lia.
  - cbn [PyNum.to_float].
    rewrite FloatAxioms.ltb_spec.
    change (FloatOps.Prim2SF (PyNum.float_of_int 0)) with (SpecFloat.S754_zero false).
    unfold PyNum.int.
    destruct (FloatOps.Prim2SF f) as [s|s| |s m e] eqn:Ef; try destruct s;
      cbn [SpecFloat.SFltb SpecFloat.SFcompare]; try rewrite Ef;
      try discriminate; try (intros [= <-]; lia).
    intros [= <-]. exact (magnitude_not_negative m e).
Qed.

(** X11. Whenever a crop window is computed, its upper bound [y_0] is not
    negative, whatever the two scans answer. *)
Theorem crop_window_top_not_negative (img_data : grid) (w : SavePng.window) :
  snd (IO.run (crop_window img_data)) = inr w -> 0 <= SavePng.y_0 w.
Proof.
  unfold SavePng.crop_window, IO.run, IO.bind, IO.lift, IO.ret.
  destruct (PyNum.int (PyNum.min _ _)) as [e|x0]; [discriminate|].
  destruct (PyNum.int (PyNum.max _ _)) as [e|x1]; [discriminate|].
  destruct (PyNum.int (PyNum.max (PyNum.PyInt 0) _)) as [e|y0] eqn:Ey0; [discriminate|].
  destruct (PyNum.int (PyNum.min _ _)) as [e|y1]; [discriminate|].
  cbn [snd]. intros [= <-]. cbn [SavePng.y_0]. now apply int_max_zero in Ey0.
Qed.

(** X12. The crop window is computed from what the two scans answer on the
    image and on its transpose and from the number of columns, and from
    nothing else: two images that agree on these get the same window,
    whatever their numbers of rows. *)
Theorem crop_window_ignores_height (g g' : grid) :
  ncols g = ncols g' ->
  find_image_start_boundary g = find_image_start_boundary g' ->
  find_image_end_boundary g = find_image_end_boundary g' ->
  find_image_start_boundary (transpose g) = find_image_start_boundary (transpose g') ->
  find_image_end_boundary (transpose g) = find_image_end_boundary (transpose g') ->
  crop_window g = crop_window g'.
Proof.
  intros Hcols Hs He HsT HeT. unfold SavePng.crop_window.
  now rewrite !length_transpose, Hcols, Hs, He, HsT, HeT.
Qed.

End Window.

End SavePngMore.

(** ** [save_png] as a whole *)

Module SavePngWhole.

Open Scope Z_scope.

Section Whole.

Variables path image pixel : Type.
Variable repr_path : path -> string.
Variable convert_from_path : path -> list image.
Variable grayscale : image -> grid.
Variable rgb : image -> list (list pixel).
Variable find_image_start_boundary find_image_end_boundary : grid -> Z.

Local Abbreviation save_png :=
  (SavePng.save_png repr_path convert_from_path grayscale rgb
     find_image_start_boundary find_image_end_boundary).
Local Abbreviation select_page := (@SavePng.select_page path image repr_path).
Local Abbreviation crop_window :=
  (SavePng.crop_window find_image_start_boundary find_image_end_boundary).

Local Abbreviation printed_lines := (@printed_lines path image repr_path).

Lemma select_page_last (pdf_fp : path) (front : list image) (page : image) :
  IO.run (select_page pdf_fp (front ++ [page])) = (printed_lines pdf_fp front, inr page).
Proof.
  destruct front as [|p front]; [reflexivity|].
  unfold SavePng.select_page, printed_lines.
  set (pages := ((p :: front) ++ [page])%list).
  assert (Hlen : Z.of_nat (List.length pages) = Z.of_nat (List.length (p :: front)) + 1).
  { subst pages. rewrite length_app. simpl List.length. lia. }
  set (total := Z.of_nat (List.length pages)) in *.
  assert (H1 : (1 <? total) = true) by (apply Z.ltb_lt; simpl in Hlen; lia).
  assert (Hget : SavePng.getitem pages (total - 1) = IO.ret page).
  { apply SavePngFacts.getitem_nonneg; [lia|].
    replace (Z.to_nat (total - 1)) with (List.length (p :: front)) by lia.
    apply SavePngFacts.nth_error_last. }
  rewrite H1. cbv beta iota delta [IO.run IO.bind IO.print IO.ret].
  rewrite Hget. cbv beta iota delta [IO.ret].
  replace (total - 1) with (Z.of_nat (List.length (p :: front))) by lia.
  now rewrite Hlen.
Qed.

(** X13. When the rasterizer returns no page, [save_png] raises
    [IndexError] and has printed nothing. *)
Theorem save_png_without_pages (pdf_fp png_destination : path) :
  convert_from_path pdf_fp = [] ->
  IO.run (save_png pdf_fp png_destination) = ([], inl IndexError).
Proof.
  intros Hpages. unfold SavePng.save_png. rewrite Hpages. reflexivity.
Qed.

(** The run of [save_png] when the rasterizer returns pages. *)
Lemma save_png_run
    (pdf_fp png_destination : path) (front : list image) (page : image) :
  convert_from_path pdf_fp = (front ++ [page])%list ->
  IO.run (save_png pdf_fp png_destination)
  = (printed_lines pdf_fp front,
     match snd (IO.run (crop_window (grayscale page))) with
     | inl e => inl e
     | inr w =>
         match SavePng.crop (rgb page) w with
         | [] | [] :: _ => inl ValueError
         | (_ :: _) :: _ => inr (png_destination, SavePng.crop (rgb page) w)
         end
     end).
Proof.
  intros Hpages. unfold SavePng.save_png. rewrite Hpages.
  unfold IO.run at 1. unfold IO.bind at 1.
  pose proof (select_page_last pdf_fp front page) as Hsel.
  unfold IO.run in Hsel. rewrite Hsel.
  unfold IO.bind. rewrite SavePngMore.crop_window_prints_nothing.
  destruct (snd (IO.run (crop_window (grayscale page)))) as [e|w]; [reflexivity|].
  unfold SavePng.save_image, SavePng.no_pixels.
  now destruct (SavePng.crop (rgb page) w) as [|[|px row] rows].
Qed.

(** X14. When the rasterizer returns pages, [save_png] reads the last one
    only: it prints the lines of the page selection and then either raises
    what the computation of the crop window of that page raises, or raises
    [ValueError] and writes no file when no pixel of that page is inside
    the window, or writes to the destination the pixels of that page inside
    the window. *)
Theorem save_png_reads_last_page
    (pdf_fp png_destination : path) (front : list image) (page : image) :
  convert_from_path pdf_fp = (front ++ [page])%list ->
  IO.run (save_png pdf_fp png_destination)
  = (printed_lines pdf_fp front,
     match snd (IO.run (crop_window (grayscale page))) with
     | inl e => inl e
     | inr w =>
         match SavePng.crop (rgb page) w with
         | [] | [] :: _ => inl ValueError
         | (_ :: _) :: _ => inr (png_destination, SavePng.crop (rgb page) w)
         end
     end).
Proof. apply save_png_run. Qed.


End Whole.

End SavePngWhole.

(** ** Writing the TeX file *)

Module TexFileFacts.

Lemma prefix_app (p v : string) : String.prefix p (p ++ v) = true.
Proof.
  induction p as [|c p IH]; simpl; [now destruct v|].
  destruct (ascii_dec c c); [assumption | contradiction].
Qed.

Lemma search_none_prefix (pattern s : string) :
  Re.search pattern s = None -> String.prefix pattern s = false.
Proof.
  destruct s as [|c s]; cbn [Re.search];
    match goal with
    | |- context [String.prefix ?a ?b] => destruct (String.prefix a b)
    end; congruence.
Qed.

(** Without an occurrence of the pattern nothing is replaced. *)
Lemma sub_without_occurrence (pattern repl s : string) :
  Re.search pattern s = None -> Re.sub pattern repl s = s.
Proof.
  unfold Re.sub. induction s as [|c s IH]; intros Hs; [reflexivity|].
  pose proof (search_none_prefix _ _ Hs) as Hp.
  cbn [Re.sub_from]. rewrite Hp. f_equal. apply IH.
  cbn [Re.search] in Hs. rewrite Hp in Hs.
  destruct (Re.search pattern s); [discriminate | reflexivity].
Qed.

Lemma sub_from_skip (pattern repl p v : string) :
  Re.sub_from (String.length p) pattern repl (p ++ v) = Re.sub_from O pattern repl v.
Proof. induction p as [|c p IH]; [reflexivity | exact IH]. Qed.

(** The leftmost occurrence is replaced, and the scan goes on after it. *)
Lemma sub_leftmost (pattern repl u v : string) :
  pattern <> "" ->
  Re.search pattern (u ++ pattern ++ v) = Some (String.length u) ->
  Re.sub pattern repl (u ++ pattern ++ v) = u ++ repl ++ Re.sub pattern repl v.
Proof.
  intros Hne. unfold Re.sub. induction u as [|c u IH]; intros Hs.
  - destruct pattern as [|c p]; [contradiction|].
    change ("" ++ String c p ++ v) with (String c (p ++ v)).
    cbn [Re.sub_from].
    change (String c (p ++ v)) with (String c p ++ v). rewrite prefix_app.
    replace (String.length (String c p) - 1)%nat with (String.length p)
      by (simpl; lia).
    now rewrite sub_from_skip.
  - change (String c u ++ pattern ++ v) with (String c (u ++ pattern ++ v)) in *.
    cbn [Re.search String.length] in Hs. cbn [Re.sub_from].
    destruct (String.prefix pattern (String c (u ++ pattern ++ v))); [discriminate|].
    destruct (Re.search pattern (u ++ pattern ++ v)) as [n|] eqn:En; [|discriminate].
    cbn [option_map] in Hs. injection Hs as ->.
    change (String c u ++ repl ++ Re.sub_from 0 pattern repl v)
      with (String c (u ++ repl ++ Re.sub_from 0 pattern repl v)).
    f_equal. now apply IH.
Qed.

Section Files.

Context {drawable : Type} `{Drawable drawable}.
Variable angle : Type.
Variable path : Type.
Variable path_join : path -> path -> path.

Local Abbreviation write_tex_file := (@TexFile.write_tex_file drawable _ angle path path_join).

(** X15. When the template has the marker once, after [before] and in
    front of [after], the file that [write_tex_file] writes holds
    [before], the full text of the picture as it is, and [after]. *)
Theorem write_tex_file_fills_marker
    (self : TexFile.t angle path) (tex_filepath : path) (before after : string) :
  Re.search "fillme" (before ++ "fillme" ++ after) = Some (String.length before) ->
  Re.search "fillme" after = None ->
  snd (write_tex_file (before ++ "fillme" ++ after) self tex_filepath)
  = before ++ TikzPicture.code (TexFile.picture self) ++ after.
Proof.
  intros Hleft Hright. unfold TexFile.write_tex_file. cbn [snd].
  rewrite sub_leftmost by (assumption || discriminate).
  now rewrite sub_without_occurrence.
Qed.

(** X16. When the template has no marker, the file that [write_tex_file]
    writes holds the template and nothing of the picture. *)
Theorem write_tex_file_without_marker
    (self : TexFile.t angle path) (tex_filepath : path) (TEX_FILE : string) :
  Re.search "fillme" TEX_FILE = None ->
  snd (write_tex_file TEX_FILE self tex_filepath) = TEX_FILE.
Proof.
  intros Hnone. unfold TexFile.write_tex_file. cbn [snd].
  now apply sub_without_occurrence.
Qed.

End Files.

End TexFileFacts.

(** ** Loading the module *)

Module JupyterFacts.

Lemma existsb_eqb_in (k : string) (l : list string) :
  existsb (String.eqb k) l = true <-> In k l.
Proof.
  rewrite existsb_exists. split.
  - intros (x & Hin & Heq). apply String.eqb_eq in Heq. now subst.
  - intros Hin. exists k. split; [assumption | apply String.eqb_refl].
Qed.

(** X17. Loading the module and calling [show] ends in one of four ways,
    each in exactly one situation: the PDF is opened in the browser when
    IPython cannot be imported; the pages are displayed when IPython runs a
    shell whose configuration has the key IPKernelApp; [show] raises
    [NameError] when the shell's configuration lacks that key; and the
    load itself raises [AttributeError] when IPython can be imported but
    runs no shell. *)
Theorem load_then_show_outcomes (env : Jupyter.environment) :
  (Jupyter.load_then_show env = inr Jupyter.OpenBrowser
   <-> Jupyter.ipython_installed env = false) /\
  (Jupyter.load_then_show env = inr Jupyter.DisplayPages
   <-> Jupyter.ipython_installed env = true /\
       exists config, Jupyter.shell_config env = Some config /\ In "IPKernelApp" config) /\
  (Jupyter.load_then_show env = inl Jupyter.NameError
   <-> Jupyter.ipython_installed env = true /\
       exists config, Jupyter.shell_config env = Some config /\ ~ In "IPKernelApp" config) /\
  (Jupyter.load_then_show env = inl Jupyter.AttributeError
   <-> Jupyter.ipython_installed env = true /\ Jupyter.shell_config env = None).
Proof.
  destruct env as [installed shell].
  unfold Jupyter.load_then_show, Jupyter.load.
  cbn [Jupyter.ipython_installed Jupyter.shell_config].
  destruct installed; [destruct shell as [config|]|].
  - destruct (existsb (String.eqb "IPKernelApp") config) eqn:Ek;
      cbn [Jupyter.show_branch].
    + apply existsb_eqb_in in Ek.
      split; [split; discriminate|].
      split; [split; [intros _; split; [reflexivity|]; now exists config | reflexivity]|].
      split; [split; [discriminate | intros (_ & c & [= <-] & Hn); contradiction]|].
      split; [discriminate | intros (_ & [=])].
    + assert (Hk : ~ In "IPKernelApp" config).
      { intros Hin. apply existsb_eqb_in in Hin. congruence. }
      split; [split; discriminate|].
      split; [split; [discriminate | intros (_ & c & [= <-] & Hin); contradiction]|].
      split; [split; [intros _; split; [reflexivity|]; now exists config | reflexivity]|].
      split; [discriminate | intros (_ & [=])].
  - split; [split; discriminate|].
    split; [split; [discriminate | intros (_ & c & [=] & _)]|].
    split; [split; [discriminate | intros (_ & c & [=] & _)]|].
    split; [tauto | reflexivity].
  - split; [split; reflexivity|].
    split; [split; [discriminate | intros ([=] & _)]|].
    split; [split; [discriminate | intros ([=] & _)]|].
    split; [discriminate | intros ([=] & _)].
Qed.

End JupyterFacts.

(** ** More theorems at concrete inputs *)

Module Examples.

Open Scope Z_scope.

(** Registering a style on a fresh picture leaves the entry of the key
    center as it was. *)
Lemma call_keeps_other_entries_example :
  let style_name := @fst string string in
  let style_code := @snd string string in
  let new_style := fun name rules : string => (name, rules) in
  let tp := @TikzPicture.init string Z false "" in
  let c := @TikzPicture.AddStyles string example_style Z [("axis", "A1")] in
  ~ In "center" (Calls.assigned_keys style_name new_style c) /\
  Dict.get (TikzPicture._preamble
              (TikzPicture.do_call style_name style_code new_style str_int tp c)) "center"
  = Dict.get (TikzPicture._preamble tp) "center".
Proof.
  assert (Hnin : ~ In "center"
                   (Calls.assigned_keys (@fst string string)
                      (fun name rules : string => (name, rules))
                      (@TikzPicture.AddStyles string example_style Z [("axis", "A1")]))).
  { simpl. intros [E|[]]. discriminate E. }
  split; [exact Hnin|].
  exact (@TikzPictureMore.call_keeps_other_entries string example_style
           (@fst string string) (@snd string string)
           (fun name rules : string => (name, rules)) Z str_int
           (@TikzPicture.init string Z false "")
           (@TikzPicture.AddStyles string example_style Z [("axis", "A1")])
           "center" Hnin).
Defined.

(** The entry of the key center stays first when a style is registered and
    the viewing angle is set. *)
Lemma calls_keep_entry_places_example :
  let style_name := @fst string string in
  let style_code := @snd string string in
  let new_style := fun name rules : string => (name, rules) in
  let tp := @TikzPicture.init string Z true "" in
  let cs := [@TikzPicture.AddStyles string example_style Z [("axis", "A1")];
             @TikzPicture.SetTdplotsetmaincoords string example_style Z 70 110] in
  Dict.index (TikzPicture._preamble tp) "center" = Some O /\
  Dict.index (TikzPicture._preamble
                (TikzPicture.do_calls style_name style_code new_style str_int tp cs))
             "center" = Some O.
Proof.
  assert (Hi : Dict.index (TikzPicture._preamble (@TikzPicture.init string Z true ""))
                          "center" = Some O) by reflexivity.
  split; [exact Hi|].
  exact (@TikzPictureMore.calls_keep_entry_places string example_style
           (@fst string string) (@snd string string)
           (fun name rules : string => (name, rules)) Z str_int
           (@TikzPicture.init string Z true "")
           [@TikzPicture.AddStyles string example_style Z [("axis", "A1")];
            @TikzPicture.SetTdplotsetmaincoords string example_style Z 70 110]
           "center" O Hi).
Defined.

(** Three styles, two of them of the same name, registered twice. *)
Lemma add_styles_again_example :
  let style_name := @fst string string in
  let style_code := @snd string string in
  let tp := @TikzPicture.init string Z false "" in
  let styles := [("axis", "A1"); ("grid", "G"); ("axis", "A2")] in
  Dict.wf (TikzPicture._preamble tp) /\
  TikzPicture.add_styles style_name style_code
    (TikzPicture.add_styles style_name style_code tp styles) styles
  = TikzPicture.add_styles style_name style_code tp styles.
Proof.
  assert (Hwf : Dict.wf (TikzPicture._preamble (@TikzPicture.init string Z false ""))).
  { repeat constructor; simpl; tauto. }
  split; [exact Hwf|].
  exact (@TikzPictureMore.add_styles_again string example_style
           (@fst string string) (@snd string string) Z
           (@TikzPicture.init string Z false "")
           [("axis", "A1"); ("grid", "G"); ("axis", "A2")] Hwf).
Defined.

(** The middle of an image of 3 rows and 4 columns. *)
Lemma crop_within_image_example :
  let img_data := [[1; 2; 3; 4]; [5; 6; 7; 8]; [9; 10; 11; 12]] in
  let w := SavePng.mk_window 1 3 1 3 in
  (0 <= 1 <= 3) /\ 3 <= Z.of_nat (List.length img_data) /\ (0 <= 1 <= 3) /\
  Forall (fun row : list Z => 3 <= Z.of_nat (List.length row)) img_data /\
  List.length (SavePng.crop img_data w) = 2%nat /\
  pixel_at (SavePng.crop img_data w) 1 0 = pixel_at img_data 2 1.
Proof.
  assert (Hy : 0 <= 1 <= 3) by lia.
  assert (Hy1 : 3 <= Z.of_nat (List.length [[1; 2; 3; 4]; [5; 6; 7; 8]; [9; 10; 11; 12]]))
    by (simpl; lia).
  assert (Hrows : Forall (fun row : list Z => 3 <= Z.of_nat (List.length row))
                         [[1; 2; 3; 4]; [5; 6; 7; 8]; [9; 10; 11; 12]])
    by (repeat constructor; simpl; lia).
  split; [exact Hy|]. split; [exact Hy1|]. split; [exact Hy|]. split; [exact Hrows|].
  destruct (@SavePngMore.crop_within_image Z
              [[1; 2; 3; 4]; [5; 6; 7; 8]; [9; 10; 11; 12]]
              (SavePng.mk_window 1 3 1 3) Hy Hy1 Hy Hrows) as (Hlen & _ & Hpix).
  split; [exact Hlen|].
  apply (Hpix 1%nat 0%nat); simpl; lia.
Defined.

(** The window computed for the tall page, on an image of that size. *)
Lemma crop_of_inverted_window_example :
  (0 <= 10 <= 98) /\ SavePng.crop tall_page (SavePng.mk_window 98 10 2 8) = [].
Proof.
  assert (Hy : 0 <= 10 <= 98) by lia.
  split; [exact Hy|].
  exact (@SavePngMore.crop_of_inverted_window Z tall_page
           (SavePng.mk_window 98 10 2 8) Hy).
Defined.

(** The crop window of the wide page, with pixels below 128 counted as
    drawn. *)
Lemma crop_window_top_not_negative_example :
  snd (IO.run (SavePng.crop_window (Helpers.find_image_start_boundary 128 0)
                                   (Helpers.find_image_end_boundary 128 0) wide_page))
  = inr (SavePng.mk_window 7 11 20 80) /\
  0 <= SavePng.y_0 (SavePng.mk_window 7 11 20 80).
Proof.
  assert (Hw : snd (IO.run (SavePng.crop_window
                              (Helpers.find_image_start_boundary 128 0)
                              (Helpers.find_image_end_boundary 128 0) wide_page))
               = inr (SavePng.mk_window 7 11 20 80)) by (vm_compute; reflexivity).
  split; [exact Hw|].
  exact (@SavePngMore.crop_window_top_not_negative
           (Helpers.find_image_start_boundary 128 0)
           (Helpers.find_image_end_boundary 128 0) wide_page
           (SavePng.mk_window 7 11 20 80) Hw).
Defined.

(** The wide page, of 10 rows, and the same page with a white row added
    below, of 11 rows, get the same crop window. *)
Lemma crop_window_ignores_height_example :
  let find_start := Helpers.find_image_start_boundary 128 0 in
  let find_end := Helpers.find_image_end_boundary 128 0 in
  ncols wide_page = ncols wide_page_11 /\
  find_start wide_page = find_start wide_page_11 /\
  find_end wide_page = find_end wide_page_11 /\
  find_start (transpose wide_page) = find_start (transpose wide_page_11) /\
  find_end (transpose wide_page) = find_end (transpose wide_page_11) /\
  List.length wide_page <> List.length wide_page_11 /\
  SavePng.crop_window find_start find_end wide_page
  = SavePng.crop_window find_start find_end wide_page_11.
Proof.
  assert (H1 : ncols wide_page = ncols wide_page_11) by reflexivity.
  assert (H2 : Helpers.find_image_start_boundary 128 0 wide_page
               = Helpers.find_image_start_boundary 128 0 wide_page_11)
    by (vm_compute; reflexivity).
  assert (H3 : Helpers.find_image_end_boundary 128 0 wide_page
               = Helpers.find_image_end_boundary 128 0 wide_page_11)
    by (vm_compute; reflexivity).
  assert (H4 : Helpers.find_image_start_boundary 128 0 (transpose wide_page)
               = Helpers.find_image_start_boundary 128 0 (transpose wide_page_11))
    by (vm_compute; reflexivity).
  assert (H5 : Helpers.find_image_end_boundary 128 0 (transpose wide_page)
               = Helpers.find_image_end_boundary 128 0 (transpose wide_page_11))
    by (vm_compute; reflexivity).
  repeat (split; [assumption|]).
  split; [simpl; discriminate|].
  exact (@SavePngMore.crop_window_ignores_height
           (Helpers.find_image_start_boundary 128 0)
           (Helpers.find_image_end_boundary 128 0)
           wide_page wide_page_11 H1 H2 H3 H4 H5).
Defined.

(** A rasterizer that returns no page. *)
Lemma save_png_without_pages_example :
  let convert_from_path := fun _ : string => @nil grid in
  let identity := fun g : grid => g in
  convert_from_path "temp.pdf" = [] /\
  IO.run (SavePng.save_png (fun p : string => p) convert_from_path identity identity
            (Helpers.find_image_start_boundary 128 0)
            (Helpers.find_image_end_boundary 128 0) "temp.pdf" "temp.png")
  = ([], inl IndexError).
Proof.
  split; [reflexivity|].
  exact (@SavePngWhole.save_png_without_pages string grid Z
           (fun p : string => p) (fun _ : string => @nil grid)
           (fun g : grid => g) (fun g : grid => g)
           (Helpers.find_image_start_boundary 128 0)
           (Helpers.find_image_end_boundary 128 0)
           "temp.pdf" "temp.png" eq_refl).
Defined.

(** A rasterizer that returns the tall page and then the wide page. *)
Lemma save_png_reads_last_page_example :
  let convert_from_path := fun _ : string => [tall_page; wide_page] in
  let identity := fun g : grid => g in
  let find_start := Helpers.find_image_start_boundary 128 0 in
  let find_end := Helpers.find_image_end_boundary 128 0 in
  convert_from_path "temp.pdf" = ([tall_page] ++ [wide_page])%list /\
  IO.run (SavePng.save_png (fun p : string => p) convert_from_path identity identity
            find_start find_end "temp.pdf" "temp.png")
  = (printed_lines (fun p : string => p) "temp.pdf" [tall_page],
     match snd (IO.run (SavePng.crop_window find_start find_end wide_page)) with
     | inl e => inl e
     | inr w =>
         match SavePng.crop wide_page w with
         | [] | [] :: _ => inl ValueError
         | (_ :: _) :: _ => inr ("temp.png", SavePng.crop wide_page w)
         end
     end).
Proof.
  split; [reflexivity|].
  exact (@SavePngWhole.save_png_reads_last_page string grid Z
           (fun p : string => p) (fun _ : string => [tall_page; wide_page])
           (fun g : grid => g) (fun g : grid => g)
           (Helpers.find_image_start_boundary 128 0)
           (Helpers.find_image_end_boundary 128 0)
           "temp.pdf" "temp.png" [tall_page] wide_page eq_refl).
Defined.



(** A template with the marker between the begin and the end of the
    document. *)
Lemma write_tex_file_fills_marker_example :
  let before := "\begin{document}" ++ nl in
  let after := nl ++ "\end{document}" in
  let self := TexFile.mk (@TikzPicture.init string Z true "") (@None string) in
  let path_join := fun a b : string => a ++ "/" ++ b in
  Re.search "fillme" (before ++ "fillme" ++ after) = Some (String.length before) /\
  Re.search "fillme" after = None /\
  snd (TexFile.write_tex_file path_join (before ++ "fillme" ++ after) self "temp.tex")
  = before ++ TikzPicture.code (TexFile.picture self) ++ after.
Proof.
  split; [reflexivity|]. split; [reflexivity|].
  exact (@TexFileFacts.write_tex_file_fills_marker string string_drawable Z string
           (fun a b : string => a ++ "/" ++ b)
           (TexFile.mk (@TikzPicture.init string Z true "") (@None string))
           "temp.tex" ("\begin{document}" ++ nl) (nl ++ "\end{document}")
           eq_refl eq_refl).
Defined.

(** A template without the marker. *)
Lemma write_tex_file_without_marker_example :
  let self := TexFile.mk (@TikzPicture.init string Z true "") (@None string) in
  let path_join := fun a b : string => a ++ "/" ++ b in
  Re.search "fillme" "\documentclass{article}" = None /\
  snd (TexFile.write_tex_file path_join "\documentclass{article}" self "temp.tex")
  = "\documentclass{article}".
Proof.
  split; [reflexivity|].
  exact (@TexFileFacts.write_tex_file_without_marker string string_drawable Z string
           (fun a b : string => a ++ "/" ++ b)
           (TexFile.mk (@TikzPicture.init string Z true "") (@None string))
           "temp.tex" "\documentclass{article}" eq_refl).
Defined.

(** A style registered for the first time on a fresh centered picture. *)
Lemma add_styles_new_name_example :
  let style_name := @fst string string in
  let style_code := @snd string string in
  let tp := @TikzPicture.init string Z true "" in
  ~ In ("tikz_style:" ++ "axis") (Dict.keys (TikzPicture._preamble tp)) /\
  TikzPicture.code (TikzPicture.add_styles style_name style_code tp [("axis", "A1")])
  = join (Dict.values (TikzPicture._preamble tp))
      ++ "A1" ++ TikzPicture.repr tp
      ++ join (rev (Dict.values (TikzPicture._postamble tp))).
Proof.
  assert (Hnew : ~ In ("tikz_style:" ++ @fst string string ("axis", "A1"))
                   (Dict.keys (TikzPicture._preamble (@TikzPicture.init string Z true "")))).
  { simpl. intros [E|[]]. discriminate E. }
  split; [exact Hnew|].
  exact (@TikzPictureMore.add_styles_new_name_emitted_last string string_drawable
           example_style (@fst string string) (@snd string string) Z
           (@TikzPicture.init string Z true "") ("axis", "A1") Hnew).
Defined.

(** The style axis registered again, between the entry of the key center
    and the style grid. *)
Lemma add_styles_known_name_example :
  let style_name := @fst string string in
  let style_code := @snd string string in
  let d1 := [("center", "")] in
  let d2 := [("tikz_style:grid", "G")] in
  let tp := @TikzPicture.mk string Z "" []
              (d1 ++ ("tikz_style:axis", "A1") :: d2)%list [("center", "")] None in
  TikzPicture._preamble tp = (d1 ++ (("tikz_style:" ++ "axis")%string, "A1") :: d2)%list /\
  ~ In ("tikz_style:" ++ "axis") (Dict.keys d1) /\
  TikzPicture.code (TikzPicture.add_styles style_name style_code tp [("axis", "A2")])
  = join (Dict.values d1) ++ "A2" ++ join (Dict.values d2)
      ++ TikzPicture.repr tp
      ++ join (rev (Dict.values (TikzPicture._postamble tp))).
Proof.
  assert (Hfirst : ~ In ("tikz_style:" ++ @fst string string ("axis", "A2"))
                     (Dict.keys [("center", "")])).
  { simpl. intros [E|[]]. discriminate E. }
  split; [reflexivity|]. split; [exact Hfirst|].
  exact (@TikzPictureMore.add_styles_known_name_emitted_in_place string string_drawable
           example_style (@fst string string) (@snd string string) Z
           (@TikzPicture.mk string Z "" []
              ([("center", "")] ++ ("tikz_style:axis", "A1") :: [("tikz_style:grid", "G")])%list
              [("center", "")] None)
           ("axis", "A2") [("center", "")] [("tikz_style:grid", "G")] "A1"
           eq_refl Hfirst).
Defined.

End Examples.
